(** * CASS runqueue selection (kernel/sched/cass.c)

    A shallow embedding of [cass_select_task_rq_fair] and of the
    [lsub_positive] macro, followed by the properties of the placement
    decision: the tier partition, the wake-affine idle path, the load
    projection and the two-slot reduction.

    Integers of type [int] are modelled as [Z] (only [&], [^] and
    comparisons are applied to them, none of which overflows); values of
    type [unsigned long] are modelled as [Z] in the range
    [0 .. ULONG_MAX], with the wrap-around of [+=] and [-=] written out. *)

From Stdlib Require Import ZArith List Bool Lia.
Import ListNotations.
Local Open Scope Z_scope.

(** ** Machine arithmetic *)

(** The target is arm64: [unsigned long] has 64 bits. *)
Definition BITS_PER_LONG : Z := 64.
Definition ULONG_MAX : Z := 2 ^ BITS_PER_LONG - 1.

(** Conversion to [unsigned long]. *)
Definition ulong (x : Z) : Z := x mod 2 ^ BITS_PER_LONG.

(** [a += b] on [unsigned long]. *)
Definition ulong_add (a b : Z) : Z := ulong (a + b).

(** [min_t(unsigned long, a, b)]. *)
Definition min_t_ulong (a b : Z) : Z := Z.min (ulong a) (ulong b).

(** The macro [lsub_positive(_ptr, _val)]:
    [*ptr -= min_t(typeof( *ptr), *ptr, _val)], as the new value of
    [*ptr]. *)
Definition lsub_positive (x val : Z) : Z := ulong (x - min_t_ulong x val).

(** C truth values. *)
Definition truthy (x : Z) : bool := negb (x =? 0).
Definition of_bool (b : bool) : Z := if b then 1 else 0.
(** [!x], [x && y] and [x || y] on operands without side effects. *)
Definition c_not (x : Z) : Z := of_bool (negb (truthy x)).
Definition c_and (x y : Z) : Z := of_bool (truthy x && truthy y).
Definition c_or (x y : Z) : Z := of_bool (truthy x || truthy y).

(** ** CPU masks *)

(** Modelled from the spec: the kernel's cpumask API is not part of
    kernel/sched/cass.c.  A mask is the bitmap of the CPU ids it holds
    (bit [c] set iff CPU [c] is in the set); its valid bits are
    [0 .. nr_cpumask_bits - 1]. *)
Definition cpumask := Z.

Section Cpumask.
Variable nr_cpumask_bits : Z.

(** Modelled from the spec: membership test of one CPU id.  For an id
    outside the valid bits the kernel reads outside the bitmap; here the
    corresponding bit of the integer is read. *)
Definition cpumask_test_cpu (cpu : Z) (m : cpumask) : bool := Z.testbit m cpu.

(** Modelled from the spec: intersection of two masks over the valid
    bits, with the answer to "is the intersection non-empty?". *)
Definition cpumask_and (a b : cpumask) : cpumask * bool :=
  let dst := Z.land (Z.land a b) (Z.ones nr_cpumask_bits) in
  (dst, negb (dst =? 0)).

(** Modelled from the spec: copy of a mask. *)
Definition cpumask_copy (src : cpumask) : cpumask := src.

(** Modelled from the spec: the CPU ids of a mask in ascending order,
    as [for_each_cpu] visits them. *)
Definition for_each_cpu (m : cpumask) : list Z :=
  filter (fun c => cpumask_test_cpu c m)
         (map Z.of_nat (seq 0 (Z.to_nat nr_cpumask_bits))).

(** CPU [c] is a valid id and a member of [m]. *)
Definition cpu_in (c : Z) (m : cpumask) : bool :=
  (0 <=? c) && (c <? nr_cpumask_bits) && cpumask_test_cpu c m.
End Cpumask.

(** ** Kernel interface *)

(** A task is named by the address of its [task_struct]. *)
Definition task := Z.

(** What the function consumes from the rest of the kernel, over an abstract
    kernel memory [K]: flag constants, the calling context, the topology
    masks, the reads of task and runqueue fields, and the collaborators of
    kernel/sched/fair.c.  [record_wakee] and [sync_entity_load_avg] update
    the memory; every other entry only reads it. *)
Record kernel (K : Type) : Type := {
  SD_BALANCE_WAKE : Z;
  SD_BALANCE_FORK : Z;
  WF_SYNC : Z;
  WF_FORK : Z;
  WF_TTWU : Z;            (* 0 unless the headers define it (lines 28-30) *)
  PF_EXITING : Z;
  nr_cpumask_bits : Z;
  current : task;
  smp_processor_id : Z;
  cpu_online_mask : cpumask;
  cpu_perf_mask : cpumask;
  cpu_lp_mask : cpumask;
  task_flags : K -> task -> Z;             (* t->flags *)
  oom_score_adj : K -> task -> Z;          (* t->signal->oom_score_adj *)
  task_on_rq_queued : K -> task -> Z;
  rq_load_avg : K -> Z -> Z;               (* cpu_rq(cpu)->cfs.avg.load_avg *)
  task_h_load : K -> task -> Z;
  record_wakee : K -> task -> K;
  wake_wide : K -> task -> Z -> Z;
  wake_affine_idle : K -> Z -> Z -> Z -> Z;
  select_idle_sibling : K -> task -> Z -> Z -> Z;
  sync_entity_load_avg : K -> task -> K
}.

Arguments SD_BALANCE_WAKE {K}.
Arguments SD_BALANCE_FORK {K}.
Arguments WF_SYNC {K}.
Arguments WF_FORK {K}.
Arguments WF_TTWU {K}.
Arguments PF_EXITING {K}.
Arguments nr_cpumask_bits {K}.
Arguments current {K}.
Arguments smp_processor_id {K}.
Arguments cpu_online_mask {K}.
Arguments cpu_perf_mask {K}.
Arguments cpu_lp_mask {K}.
Arguments task_flags {K}.
Arguments oom_score_adj {K}.
Arguments task_on_rq_queued {K}.
Arguments rq_load_avg {K}.
Arguments task_h_load {K}.
Arguments record_wakee {K}.
Arguments wake_wide {K}.
Arguments wake_affine_idle {K}.
Arguments select_idle_sibling {K}.
Arguments sync_entity_load_avg {K}.

(** The calls and shared reads the function performs, in program order. *)
Inductive event : Type :=
| EvRecordWakee (p : task)
| EvWakeWide (p : task) (sibling_count_hint : Z)
| EvWakeAffineIdle (this_cpu prev_cpu sync : Z)
| EvSelectIdleSibling (p : task) (prev_cpu target : Z)
| EvSyncEntityLoadAvg (p : task)
| EvTaskHLoad (t : task)
| EvRqLoadAvg (cpu : Z).

(** ** State monad: kernel memory and the log of events *)

Record kstate (K : Type) : Type := { mem : K; log : list event }.
Arguments mem {K}.
Arguments log {K}.

Definition M (K A : Type) : Type := kstate K -> A * kstate K.

Definition ret {K A} (a : A) : M K A := fun s => (a, s).
Definition bind {K A B} (m : M K A) (f : A -> M K B) : M K B :=
  fun s => let (a, s') := m s in f a s'.

Notation "x <- m ;; k" := (bind m (fun x => k))
  (at level 61, m at next level, right associativity).

(** A read of the memory that leaves no event. *)
Definition peek {K A} (f : K -> A) : M K A := fun s => (f (mem s), s).
(** A read of the memory logged as [e]. *)
Definition read {K A} (e : event) (f : K -> A) : M K A :=
  fun s => (f (mem s), {| mem := mem s; log := log s ++ [e] |}).
(** An update of the memory logged as [e]. *)
Definition update {K} (e : event) (f : K -> K) : M K unit :=
  fun s => (tt, {| mem := f (mem s); log := log s ++ [e] |}).

(** The body of a [for] loop run over the items of [l]. *)
Fixpoint for_each {K A} (body : A -> Z -> M K A) (l : list Z) (a : A) : M K A :=
  match l with
  | [] => ret a
  | c :: l' => a' <- body a c ;; for_each body l' a'
  end.

(** ** The candidate slots *)

(** [struct cass_cpu_cand]. *)
Record cass_cpu_cand : Type := { cand_cpu : Z; cand_load : Z }.

(** [struct cass_cpu_cand cands[2]]; a pointer into the array is the index
    of the slot it points to. *)
Definition cands_t : Type := (cass_cpu_cand * cass_cpu_cand)%type.

Definition slot (cs : cands_t) (i : Z) : cass_cpu_cand :=
  if i =? 0 then fst cs else snd cs.

Definition slot_put (cs : cands_t) (i : Z) (v : cass_cpu_cand) : cands_t :=
  if i =? 0 then (v, snd cs) else (fst cs, v).

(** [ptr->cpu = c] and [ptr->load = l] for [ptr = &cands[i]]. *)
Definition set_cpu (cs : cands_t) (i c : Z) : cands_t :=
  slot_put cs i {| cand_cpu := c; cand_load := cand_load (slot cs i) |}.
Definition set_load (cs : cands_t) (i l : Z) : cands_t :=
  slot_put cs i {| cand_cpu := cand_cpu (slot cs i); cand_load := l |}.

(** The locals of the loop that outlive an iteration: the array, [best]
    and [cidx]. *)
Record loop_state : Type := { ls_cands : cands_t; ls_best : Z; ls_cidx : Z }.

(** ** cass_select_task_rq_fair *)

Section Cass.
Context {K : Type} (ops : kernel K).

(** [rq->cfs.avg.load_avg] and [task_h_load(t)], as the [unsigned long]
    values the code receives. *)
Definition cpu_load (k : K) (cpu : Z) : Z := ulong (rq_load_avg ops k cpu).
Definition h_load (k : K) (t : task) : Z := ulong (task_h_load ops k t).

(** Lines 58-61: the CPUs valid for a task whose [oom_score_adj] is [adj]. *)
Definition cass_cpus (adj : Z) : cpumask :=
  let asym_cpus :=
    if (adj >? -1) && (adj <? 225) then cpu_perf_mask ops else cpu_lp_mask ops in
  let (cpus, nonempty) :=
    cpumask_and (nr_cpumask_bits ops) (cpu_online_mask ops) asym_cpus in
  if negb nonempty then cpumask_copy (cpu_online_mask ops) else cpus.

(** Lines 71-72: [want_affine], from the answer [ww] of [wake_wide] and the
    value held by the local [cpu]. *)
Definition cass_want_affine (ww cpu : Z) (cpus : cpumask) : Z :=
  c_and (c_not ww) (of_bool (cpumask_test_cpu cpu cpus)).

(** Lines 66-79: the stock wake_affine idle path.  The result is
    [Some r] when the function returns [r] at line 78, and [None] when
    control reaches line 85; [want_affine] is handed on in both cases.
    [cpu] is the value of the local [cpu], which line 48 declares without
    an initialiser and nothing assigns before line 72. *)
Definition cass_wake_affine (p : task)
    (prev_cpu sd_flag wake_flags sibling_count_hint : Z)
    (sync this_cpu cpu : Z) (cpus : cpumask) : M K (option Z * Z) :=
  if truthy (Z.land sd_flag (SD_BALANCE_WAKE ops))
     || truthy (Z.land wake_flags (WF_TTWU ops)) then
    let wa_cpu := nr_cpumask_bits ops in
    _ <- update (EvRecordWakee p) (fun k => record_wakee ops k p) ;;
    ww <- read (EvWakeWide p sibling_count_hint)
               (fun k => wake_wide ops k p sibling_count_hint) ;;
    let want_affine := cass_want_affine ww cpu cpus in
    wa_cpu <- (if truthy want_affine then
                 read (EvWakeAffineIdle this_cpu prev_cpu sync)
                      (fun k => wake_affine_idle ops k this_cpu prev_cpu sync)
               else ret wa_cpu) ;;
    if negb (wa_cpu =? nr_cpumask_bits ops) then
      r <- read (EvSelectIdleSibling p prev_cpu wa_cpu)
                (fun k => select_idle_sibling ops k p prev_cpu wa_cpu) ;;
      ret (Some r, want_affine)
    else ret (None, want_affine)
  else ret (None, 0).

(** Lines 85-88: [p_load], initialised to 0 at line 49. *)
Definition cass_p_load (p : task) (sd_flag wake_flags : Z) : M K Z :=
  let p_load := 0 in
  if negb (truthy (Z.land sd_flag (SD_BALANCE_FORK ops)))
     && negb (truthy (Z.land wake_flags (WF_FORK ops))) then
    _ <- update (EvSyncEntityLoadAvg p) (fun k => sync_entity_load_avg ops k p) ;;
    read (EvTaskHLoad p) (fun k => h_load k p)
  else ret p_load.

(** Lines 105-127: the slot [curr = &cands[cidx]] is filled with the CPU and
    its load, and the load is adjusted for [p]. *)
Definition cass_project (sync p_queued prev_cpu this_cpu p_load : Z)
    (cs : cands_t) (curr : Z) (cpu : Z) : M K cands_t :=
  l <- read (EvRqLoadAvg cpu) (fun k => cpu_load k cpu) ;;
  let cs := set_cpu cs curr cpu in
  let cs := set_load cs curr l in
  if truthy sync then
    let cs :=
      if negb (cand_cpu (slot cs curr) =? prev_cpu)
      then set_load cs curr (ulong_add (cand_load (slot cs curr)) p_load)
      else cs in
    if cand_cpu (slot cs curr) =? this_cpu then
      w <- read (EvTaskHLoad (current ops)) (fun k => h_load k (current ops)) ;;
      ret (set_load cs curr (lsub_positive (cand_load (slot cs curr)) w))
    else ret cs
  else
    let cs :=
      if truthy p_queued && negb (cand_cpu (slot cs curr) =? prev_cpu)
      then set_load cs curr (ulong_add (cand_load (slot cs curr)) p_load)
      else cs in
    let cs :=
      if negb (truthy p_queued)
      then set_load cs curr (ulong_add (cand_load (slot cs curr)) p_load)
      else cs in
    ret cs.

(** Lines 134-137: [best] and [cidx] after the comparison. *)
Definition cass_compare (cs : cands_t) (best cidx : Z) : loop_state :=
  let curr := cidx in
  if (best =? curr) || (cand_load (slot cs curr) <=? cand_load (slot cs best))
  then {| ls_cands := cs; ls_best := curr; ls_cidx := Z.lxor cidx 1 |}
  else {| ls_cands := cs; ls_best := best; ls_cidx := cidx |}.

(** Lines 104-137: one iteration of the loop. *)
Definition cass_loop_body (sync p_queued prev_cpu this_cpu p_load : Z)
    (ls : loop_state) (cpu : Z) : M K loop_state :=
  cs <- cass_project sync p_queued prev_cpu this_cpu p_load
          (ls_cands ls) (ls_cidx ls) cpu ;;
  ret (cass_compare cs (ls_best ls) (ls_cidx ls)).

(** Lines 103-140: the loop over [cpus] and the CPU of [best].  [cands0] is
    the content of the uninitialised array [cands]. *)
Definition cass_find_best (sync p_queued prev_cpu this_cpu p_load : Z)
    (cpus : cpumask) (cands0 : cands_t) : M K Z :=
  ls <- for_each (cass_loop_body sync p_queued prev_cpu this_cpu p_load)
          (for_each_cpu (nr_cpumask_bits ops) cpus)
          {| ls_cands := cands0; ls_best := 0; ls_cidx := 0 |} ;;
  ret (cand_cpu (slot (ls_cands ls) (ls_best ls))).

(** Lines 46-47: [sync] and [p_queued] as initialised. *)
Definition cass_sync_init (wake_flags cur_flags : Z) : Z :=
  c_and (Z.land wake_flags (WF_SYNC ops))
        (c_not (Z.land cur_flags (PF_EXITING ops))).
Definition cass_p_queued (on_rq : Z) (p : task) : Z :=
  c_or on_rq (of_bool (current ops =? p)).

(** The whole function.  [cpu0] and [cands0] are the indeterminate initial
    contents of the locals [cpu] and [cands]. *)
Definition cass_select_task_rq_fair (p : task)
    (prev_cpu sd_flag wake_flags sibling_count_hint : Z)
    (cpu0 : Z) (cands0 : cands_t) : M K Z :=
  cur_flags <- peek (fun k => task_flags ops k (current ops)) ;;
  let sync := cass_sync_init wake_flags cur_flags in
  on_rq <- peek (fun k => task_on_rq_queued ops k p) ;;
  let p_queued := cass_p_queued on_rq p in
  let this_cpu := smp_processor_id ops in
  adj <- peek (fun k => oom_score_adj ops k p) ;;
  let cpus := cass_cpus adj in
  wa <- cass_wake_affine p prev_cpu sd_flag wake_flags sibling_count_hint
          sync this_cpu cpu0 cpus ;;
  match wa with
  | (Some r, _) => ret r
  | (None, want_affine) =>
      p_load <- cass_p_load p sd_flag wake_flags ;;
      let sync := Z.land sync want_affine in
      cass_find_best sync p_queued prev_cpu this_cpu p_load cpus cands0
  end.

End Cass.

(** ** Vocabulary of the statements *)

(** A list in strictly ascending order: whatever comes later is larger. *)
Definition ascending (l : list Z) : Prop :=
  forall l1 x l2 y, l = l1 ++ x :: l2 -> In y l2 -> x < y.

(** The reducer as the specification words it (section 4.4), to be
    compared with the two-slot loop of the code: the running best after one
    more candidate [c], for projected loads [proj]; [c] replaces [best]
    when its load is less than or equal. *)
Definition pick (proj : Z -> Z) (best c : Z) : Z :=
  if proj c <=? proj best then c else best.

(** The calls of a log that update the kernel memory, in order. *)
Definition is_update_event (e : event) : bool :=
  match e with
  | EvRecordWakee _ | EvSyncEntityLoadAvg _ => true
  | _ => false
  end.
Definition updates (tr : list event) : list event := filter is_update_event tr.

(** The CPUs whose runqueue load a log reads, in the order of the reads. *)
Definition rq_reads (tr : list event) : list Z :=
  flat_map (fun e => match e with EvRqLoadAvg c => [c] | _ => [] end) tr.

Section Vocabulary.
Context {K : Type} (ops : kernel K).

(** The projected load of CPU [c]: what lines 105-127 leave in the [load]
    field of the slot they fill, in memory [k]. *)
Definition cass_projected (k : K) (sync p_queued prev_cpu this_cpu p_load c : Z) : Z :=
  let z := {| cand_cpu := 0; cand_load := 0 |} in
  cand_load (slot (fst (cass_project ops sync p_queued prev_cpu this_cpu p_load
                          (z, z) 0 c {| mem := k; log := [] |})) 0).

(** The loop invariant once a candidate has been seen: [best] points to a
    slot that holds CPU [b] with its projected load, and [cidx] is the
    other slot. *)
Definition best_is (k : K) (sync p_queued prev_cpu this_cpu p_load : Z)
    (ls : loop_state) (b : Z) : Prop :=
  (ls_best ls = 0 \/ ls_best ls = 1) /\
  ls_cidx ls = Z.lxor (ls_best ls) 1 /\
  slot (ls_cands ls) (ls_best ls) =
    {| cand_cpu := b;
       cand_load := cass_projected k sync p_queued prev_cpu this_cpu p_load b |}.

(** The events of one projection. *)
Definition project_events (sync this_cpu c : Z) : list event :=
  EvRqLoadAvg c ::
  (if truthy sync && (c =? this_cpu) then [EvTaskHLoad (current ops)] else []).

(** The events of the wake-affine block, and the reads of loads. *)
Definition is_wake_event (e : event) : bool :=
  match e with
  | EvRecordWakee _ | EvWakeWide _ _ | EvWakeAffineIdle _ _ _
  | EvSelectIdleSibling _ _ _ => true
  | _ => false
  end.
Definition is_load_event (e : event) : bool :=
  match e with
  | EvTaskHLoad _ | EvRqLoadAvg _ => true
  | _ => false
  end.

(** The same kernel with other runqueue loads. *)
Definition with_rq_load_avg (f : K -> Z -> Z) : kernel K :=
  {| SD_BALANCE_WAKE := SD_BALANCE_WAKE ops;
     SD_BALANCE_FORK := SD_BALANCE_FORK ops;
     WF_SYNC := WF_SYNC ops;
     WF_FORK := WF_FORK ops;
     WF_TTWU := WF_TTWU ops;
     PF_EXITING := PF_EXITING ops;
     nr_cpumask_bits := nr_cpumask_bits ops;
     current := current ops;
     smp_processor_id := smp_processor_id ops;
     cpu_online_mask := cpu_online_mask ops;
     cpu_perf_mask := cpu_perf_mask ops;
     cpu_lp_mask := cpu_lp_mask ops;
     task_flags := task_flags ops;
     oom_score_adj := oom_score_adj ops;
     task_on_rq_queued := task_on_rq_queued ops;
     rq_load_avg := f;
     task_h_load := task_h_load ops;
     record_wakee := record_wakee ops;
     wake_wide := wake_wide ops;
     wake_affine_idle := wake_affine_idle ops;
     select_idle_sibling := select_idle_sibling ops;
     sync_entity_load_avg := sync_entity_load_avg ops |}.

(** The call is a wakeup in the sense of line 66. *)
Definition is_wakeup (sd_flag wake_flags : Z) : bool :=
  truthy (Z.land sd_flag (SD_BALANCE_WAKE ops))
  || truthy (Z.land wake_flags (WF_TTWU ops)).

(** The call is a task creation in the sense of line 85. *)
Definition is_fork (sd_flag wake_flags : Z) : bool :=
  truthy (Z.land sd_flag (SD_BALANCE_FORK ops))
  || truthy (Z.land wake_flags (WF_FORK ops)).

End Vocabulary.

(** ** A concrete kernel *)

(** A small memory: the wakee-flip counter that [record_wakee] bumps and
    [wake_wide] reads, and whether the load of the task has been synced. *)
Record demo_mem : Type := { dm_flips : Z; dm_synced : bool }.

(** Eight possible CPUs, performance tier {0,1}, low-power tier {2,3}; the
    running task is 100 with load 15; a task has load [pl] once synced and
    a stale 999 before; [wake_affine_idle] answers [wa this_cpu prev_cpu];
    [select_idle_sibling] answers its target.  Flag values are those of
    Linux 4.14. *)
Definition demo_kernel (online : cpumask) (this_cpu adj : Z) (loads : list Z)
    (pl : Z) (wa : Z -> Z -> Z) : kernel demo_mem :=
  {| SD_BALANCE_WAKE := 16;
     SD_BALANCE_FORK := 8;
     WF_SYNC := 1;
     WF_FORK := 2;
     WF_TTWU := 0;
     PF_EXITING := 4;
     nr_cpumask_bits := 8;
     current := 100;
     smp_processor_id := this_cpu;
     cpu_online_mask := online;
     cpu_perf_mask := 3;
     cpu_lp_mask := 12;
     task_flags := fun _ _ => 0;
     oom_score_adj := fun _ _ => adj;
     task_on_rq_queued := fun _ _ => 0;
     rq_load_avg := fun _ c => nth (Z.to_nat c) loads 0;
     task_h_load := fun k t =>
       if t =? 100 then 15 else if dm_synced k then pl else 999;
     record_wakee := fun k _ =>
       {| dm_flips := dm_flips k + 1; dm_synced := dm_synced k |};
     wake_wide := fun k _ hint => of_bool (hint <? dm_flips k);
     wake_affine_idle := fun _ this_cpu prev_cpu _ => wa this_cpu prev_cpu;
     select_idle_sibling := fun _ _ _ target => target;
     sync_entity_load_avg := fun k _ =>
       {| dm_flips := dm_flips k; dm_synced := true |} |}.

Definition demo_start : kstate demo_mem :=
  {| mem := {| dm_flips := 0; dm_synced := false |}; log := [] |}.

(** Indeterminate initial content of [cands]. *)
Definition demo_cands : cands_t :=
  ({| cand_cpu := 77; cand_load := 0 |}, {| cand_cpu := 99; cand_load := 0 |}).

(** No idle CPU found: the sentinel. *)
Definition wa_none (this_cpu prev_cpu : Z) : Z := 8.
(** The previous CPU is found idle. *)
Definition wa_prev (this_cpu prev_cpu : Z) : Z := prev_cpu.

(** * Properties *)

(** ** Unsigned long arithmetic *)

Lemma ulong_range (x : Z) : 0 <= ulong x <= ULONG_MAX.
Proof.
  unfold ulong, ULONG_MAX.
  assert (H : 0 < 2 ^ BITS_PER_LONG) by (unfold BITS_PER_LONG; lia).
  pose proof (Z.mod_pos_bound x _ H). lia.
Qed.

Lemma ulong_small (x : Z) : 0 <= x <= ULONG_MAX -> ulong x = x.
Proof.
  unfold ulong, ULONG_MAX. intros H. apply Z.mod_small. lia.
Qed.

Lemma ulong_idem (x : Z) : ulong (ulong x) = ulong x.
Proof. apply ulong_small, ulong_range. Qed.

Lemma lsub_positive_sat (x v : Z) :
  0 <= x <= ULONG_MAX -> 0 <= v <= ULONG_MAX ->
  lsub_positive x v = Z.max 0 (x - v).
Proof.
  intros Hx Hv. unfold lsub_positive, min_t_ulong.
  rewrite (ulong_small x), (ulong_small v) by assumption.
  rewrite ulong_small; lia.
Qed.

Lemma truthy_of_bool (b : bool) : truthy (of_bool b) = b.
Proof. destruct b; reflexivity. Qed.

(** ** CPU masks *)

Lemma cpu_in_spec (n c : Z) (m : cpumask) :
  cpu_in n c m = true <-> 0 <= c < n /\ Z.testbit m c = true.
Proof.
  unfold cpu_in, cpumask_test_cpu.
  rewrite !andb_true_iff, Z.leb_le, Z.ltb_lt. tauto.
Qed.

Lemma cpumask_and_test (n : Z) (a b : cpumask) (c : Z) :
  0 <= n ->
  cpumask_test_cpu c (fst (cpumask_and n a b)) = cpu_in n c a && cpu_in n c b.
Proof.
  intros Hn. unfold cpumask_and, cpu_in, cpumask_test_cpu. simpl.
  rewrite !Z.land_spec, Z.testbit_ones by assumption.
  destruct (0 <=? c), (c <? n), (Z.testbit a c), (Z.testbit b c); reflexivity.
Qed.

(** A non-zero intersection holds a valid CPU id. *)
Lemma cpumask_and_nonempty (n : Z) (a b : cpumask) :
  0 <= n -> snd (cpumask_and n a b) = true ->
  exists c, cpu_in n c (fst (cpumask_and n a b)) = true.
Proof.
  intros Hn. unfold cpumask_and. simpl. intros Hnz.
  apply negb_true_iff, Z.eqb_neq in Hnz.
  set (d := Z.land (Z.land a b) (Z.ones n)) in *.
  assert (Hd : 0 <= d).
  { unfold d. apply Z.land_nonneg. right.
    rewrite Z.ones_equiv. pose proof (Z.pow_pos_nonneg 2 n). lia. }
  assert (Hbit : Z.testbit d (Z.log2 d) = true) by (apply Z.bit_log2; lia).
  exists (Z.log2 d). apply cpu_in_spec. split; [| exact Hbit].
  pose proof (Z.log2_nonneg d).
  unfold d in Hbit at 1. rewrite Z.land_spec, Z.testbit_ones in Hbit by assumption.
  apply andb_true_iff in Hbit. destruct Hbit as [_ Hb].
  apply andb_true_iff in Hb. destruct Hb as [_ Hb]. apply Z.ltb_lt in Hb. lia.
Qed.

Lemma cpumask_and_empty (n : Z) (a b : cpumask) (c : Z) :
  0 <= n -> snd (cpumask_and n a b) = false ->
  cpu_in n c a && cpu_in n c b = false.
Proof.
  intros Hn Hz. rewrite <- cpumask_and_test by assumption.
  unfold cpumask_and in *. simpl in *.
  apply negb_false_iff, Z.eqb_eq in Hz. rewrite Hz.
  unfold cpumask_test_cpu. apply Z.testbit_0_l.
Qed.

Lemma in_for_each_cpu (n c : Z) (m : cpumask) :
  In c (for_each_cpu n m) <-> cpu_in n c m = true.
Proof.
  unfold for_each_cpu. rewrite filter_In, in_map_iff, cpu_in_spec.
  unfold cpumask_test_cpu. split.
  - intros [[i [Hi Hin]] Hb]. apply in_seq in Hin. split; [lia | assumption].
  - intros [Hc Hb]. split; [| assumption].
    exists (Z.to_nat c). split; [lia |]. apply in_seq. lia.
Qed.

Lemma ascending_filter (f : Z -> bool) (l : list Z) :
  ascending l -> ascending (filter f l).
Proof.
  induction l as [| a l IH]; intros Hasc.
  - intros [| ? ?] x l2 y H; discriminate H.
  - assert (Hl : ascending l).
    { intros l1 x l2 y E Hy. apply (Hasc (a :: l1) x l2 y); [rewrite E; reflexivity | assumption]. }
    simpl. destruct (f a) eqn:Ef; [| apply IH, Hl].
    intros l1 x l2 y E Hy. destruct l1 as [| b l1]; simpl in E; inversion E; subst.
    + apply (Hasc [] x l y eq_refl).
      apply filter_In in Hy. tauto.
    + apply (IH Hl l1 x l2 y); assumption.
Qed.

Lemma ascending_seq (a n : nat) : ascending (map Z.of_nat (seq a n)).
Proof.
  revert a. induction n as [| n IH]; intros a l1 x l2 y E Hy.
  - destruct l1; discriminate E.
  - simpl in E. destruct l1 as [| b l1]; simpl in E; inversion E; subst.
    + apply in_map_iff in Hy. destruct Hy as [i [<- Hi]]. apply in_seq in Hi. lia.
    + apply (IH (S a) l1 x l2 y); assumption.
Qed.

Lemma ascending_for_each_cpu (n : Z) (m : cpumask) : ascending (for_each_cpu n m).
Proof. apply ascending_filter, ascending_seq. Qed.

(** ** The scenarios of the specification, run *)

(** Performance tier, loads 100 100 50 50, task not queued, asynchronous,
    task load 20: CPUs 0 and 1 tie at 120 and CPU 1 is returned. *)
Example scenario_1 :
  fst (cass_select_task_rq_fair (demo_kernel 15 0 0 [100; 100; 50; 50] 20 wa_none)
         200 0 0 0 0 0 demo_cands demo_start) = 1.
Proof. vm_compute. reflexivity. Qed.

(** The same with a low-power hint: CPUs 2 and 3 tie at 70, CPU 3 wins. *)
Example scenario_2 :
  fst (cass_select_task_rq_fair (demo_kernel 15 0 500 [100; 100; 50; 50] 20 wa_none)
         200 0 0 0 0 0 demo_cands demo_start) = 3.
Proof. vm_compute. reflexivity. Qed.

(** Synchronous wakeup on CPU 0, previous CPU 1, loads 40 40, task load
    10, waker load 15: CPU 0 projects to 35, CPU 1 to 40. *)
Example scenario_3 :
  fst (cass_select_task_rq_fair (demo_kernel 3 0 0 [40; 40] 10 wa_none)
         200 1 16 1 2 0 demo_cands demo_start) = 0.
Proof. vm_compute. reflexivity. Qed.

(** The previous CPU 2 is found idle: it is returned whatever the loads. *)
Example scenario_4 :
  fst (cass_select_task_rq_fair (demo_kernel 15 0 0 [1; 2; 3; 4] 10 wa_prev)
         200 2 16 0 2 0 demo_cands demo_start) = 2.
Proof. vm_compute. reflexivity. Qed.

(** ** The load projection (lines 105-127) *)

Section Projection.
Context {K : Type} (ops : kernel K).

Lemma slot_slot_put (cs : cands_t) (i : Z) (v : cass_cpu_cand) :
  slot (slot_put cs i v) i = v.
Proof. unfold slot, slot_put. destruct (i =? 0); reflexivity. Qed.

Lemma slot_put_other (cs : cands_t) (i j : Z) (v : cass_cpu_cand) :
  (i =? 0) = negb (j =? 0) -> slot (slot_put cs i v) j = slot cs j.
Proof.
  unfold slot, slot_put. intros H. rewrite H.
  destruct (j =? 0); reflexivity.
Qed.

(** The projected load in closed form. *)
Lemma cass_projected_eq (k : K) (sync p_queued prev_cpu this_cpu p_load c : Z) :
  cass_projected ops k sync p_queued prev_cpu this_cpu p_load c =
  if truthy sync then
    let a := if c =? prev_cpu then cpu_load ops k c
             else ulong_add (cpu_load ops k c) p_load in
    if c =? this_cpu then lsub_positive a (h_load ops k (current ops)) else a
  else if truthy p_queued then
    if c =? prev_cpu then cpu_load ops k c
    else ulong_add (cpu_load ops k c) p_load
  else ulong_add (cpu_load ops k c) p_load.
Proof.
  unfold cass_projected, cass_project, bind, read, ret, set_load, set_cpu,
    slot, slot_put. simpl.
  destruct (truthy sync), (truthy p_queued), (c =? prev_cpu); simpl;
    destruct (c =? this_cpu); reflexivity.
Qed.

(** One projection fills the slot [curr] with the CPU and its projected
    load, leaves the other slot and the memory alone, and logs its reads. *)
Lemma cass_project_run (sync p_queued prev_cpu this_cpu p_load : Z)
    (cs : cands_t) (curr c : Z) (s : kstate K) :
  cass_project ops sync p_queued prev_cpu this_cpu p_load cs curr c s =
  (slot_put cs curr
     {| cand_cpu := c;
        cand_load := cass_projected ops (mem s) sync p_queued prev_cpu this_cpu p_load c |},
   {| mem := mem s; log := log s ++ project_events ops sync this_cpu c |}).
Proof.
  rewrite cass_projected_eq.
  unfold cass_project, project_events, bind, read, ret, set_load, set_cpu,
    slot, slot_put.
  destruct cs as [c0 c1]. simpl.
  destruct (curr =? 0), (truthy sync), (truthy p_queued); simpl;
    destruct (c =? prev_cpu); simpl; destruct (c =? this_cpu); simpl;
    rewrite <- ?app_assoc; reflexivity.
Qed.

Lemma cass_projected_range (k : K) (sync p_queued prev_cpu this_cpu p_load c : Z) :
  0 <= cass_projected ops k sync p_queued prev_cpu this_cpu p_load c <= ULONG_MAX.
Proof.
  rewrite cass_projected_eq. unfold ulong_add, lsub_positive, cpu_load.
  destruct (truthy sync), (c =? prev_cpu), (c =? this_cpu), (truthy p_queued);
    simpl; apply ulong_range.
Qed.

End Projection.

(** ** The reduction (lines 103-140) *)

(** The running best of a single pass: it is a member of the list, no
    candidate before it has a smaller load, and every candidate after it
    has a strictly larger one. *)
Lemma fold_pick_split (proj : Z -> Z) (l : list Z) (b : Z) :
  exists l1 l2,
    b :: l = l1 ++ fold_left (pick proj) l b :: l2 /\
    (forall c, In c l1 -> proj (fold_left (pick proj) l b) <= proj c) /\
    (forall c, In c l2 -> proj (fold_left (pick proj) l b) < proj c).
Proof.
  induction l as [| x l IH] using rev_ind.
  - exists [], []. simpl. split; [reflexivity |]. split; intros c [].
  - destruct IH as [l1 [l2 [E [Hle Hlt]]]].
    rewrite fold_left_app. simpl. set (r := fold_left (pick proj) l b) in *.
    assert (Hr : pick proj r x = if proj x <=? proj r then x else r)
      by reflexivity.
    rewrite Hr. clear Hr. destruct (proj x <=? proj r) eqn:Hx.
    + apply Z.leb_le in Hx. exists (b :: l), []. split; [| split].
      * reflexivity.
      * intros c Hc. rewrite E in Hc. apply in_app_or in Hc.
        destruct Hc as [Hc | [<- | Hc]].
        -- specialize (Hle c Hc). lia.
        -- assumption.
        -- specialize (Hlt c Hc). lia.
      * intros c [].
    + apply Z.leb_gt in Hx. exists l1, (l2 ++ [x]). split; [| split].
      * change (b :: l ++ [x]) with ((b :: l) ++ [x]). rewrite E.
        rewrite <- app_assoc. reflexivity.
      * assumption.
      * intros c Hc. apply in_app_or in Hc. destruct Hc as [Hc | [<- | []]].
        -- apply Hlt, Hc.
        -- assumption.
Qed.

Section Reduction.
Context {K : Type} (ops : kernel K).
Variables sync p_queued prev_cpu this_cpu p_load : Z.

(** The first iteration: [best == curr], so the first candidate is taken
    without a comparison. *)
Lemma cass_loop_body_first (cands0 : cands_t) (c : Z) (s : kstate K) :
  exists ls,
    cass_loop_body ops sync p_queued prev_cpu this_cpu p_load
      {| ls_cands := cands0; ls_best := 0; ls_cidx := 0 |} c s =
    (ls, {| mem := mem s; log := log s ++ project_events ops sync this_cpu c |}) /\
    best_is ops (mem s) sync p_queued prev_cpu this_cpu p_load ls c.
Proof.
  unfold cass_loop_body, bind, ret. rewrite cass_project_run. simpl.
  eexists. split; [reflexivity |]. unfold cass_compare, best_is. simpl.
  split; [left; reflexivity |]. split; reflexivity.
Qed.

(** A later iteration: the candidate goes to the free slot and replaces
    [best] exactly when its load is less than or equal. *)
Lemma cass_loop_body_next (ls : loop_state) (b c : Z) (s : kstate K) :
  best_is ops (mem s) sync p_queued prev_cpu this_cpu p_load ls b ->
  exists ls',
    cass_loop_body ops sync p_queued prev_cpu this_cpu p_load ls c s =
    (ls', {| mem := mem s; log := log s ++ project_events ops sync this_cpu c |}) /\
    best_is ops (mem s) sync p_queued prev_cpu this_cpu p_load ls'
      (pick (cass_projected ops (mem s) sync p_queued prev_cpu this_cpu p_load) b c).
Proof.
  intros [Hb [Hc Hs]].
  unfold cass_loop_body, bind, ret. rewrite cass_project_run.
  eexists. split; [reflexivity |].
  unfold cass_compare, pick. rewrite slot_slot_put.
  assert (Hne : (ls_best ls =? ls_cidx ls) = false).
  { rewrite Hc. destruct Hb as [-> | ->]; reflexivity. }
  assert (Hoth : (ls_cidx ls =? 0) = negb (ls_best ls =? 0)).
  { rewrite Hc. destruct Hb as [-> | ->]; reflexivity. }
  rewrite Hne, (slot_put_other _ _ _ _ Hoth), Hs. simpl.
  destruct (_ <=? _); unfold best_is; simpl.
  - rewrite slot_slot_put. split; [| split; [| reflexivity]].
    + rewrite Hc. destruct Hb as [-> | ->]; [right | left]; reflexivity.
    + rewrite Hc. destruct Hb as [-> | ->]; reflexivity.
  - rewrite (slot_put_other _ _ _ _ Hoth). auto.
Qed.

Lemma cass_loop_rest (l : list Z) (ls : loop_state) (b : Z) (s : kstate K) :
  best_is ops (mem s) sync p_queued prev_cpu this_cpu p_load ls b ->
  exists ls',
    for_each (cass_loop_body ops sync p_queued prev_cpu this_cpu p_load) l ls s =
    (ls', {| mem := mem s;
             log := log s ++ flat_map (project_events ops sync this_cpu) l |}) /\
    best_is ops (mem s) sync p_queued prev_cpu this_cpu p_load ls'
      (fold_left (pick (cass_projected ops (mem s) sync p_queued prev_cpu this_cpu p_load)) l b).
Proof.
  revert ls b s. induction l as [| c l IH]; intros ls b s Hinv.
  - exists ls. simpl. rewrite app_nil_r. destruct s; auto.
  - destruct (cass_loop_body_next ls b c s Hinv) as [ls1 [E1 H1]].
    set (s1 := {| mem := mem s; log := log s ++ project_events ops sync this_cpu c |}) in *.
    destruct (IH ls1 _ s1 H1) as [ls2 [E2 H2]].
    exists ls2. simpl. unfold bind at 1. rewrite E1, E2. simpl.
    rewrite <- app_assoc. auto.
Qed.

(** The loop as a whole: over an empty mask the uninitialised slot 0 is
    returned; otherwise the result is the single-pass running best started
    at the first CPU.  The memory is only read. *)
Lemma cass_find_best_run (cpus : cpumask) (cands0 : cands_t) (s : kstate K) :
  cass_find_best ops sync p_queued prev_cpu this_cpu p_load cpus cands0 s =
  (match for_each_cpu (nr_cpumask_bits ops) cpus with
   | [] => cand_cpu (fst cands0)
   | c :: l =>
       fold_left (pick (cass_projected ops (mem s) sync p_queued prev_cpu this_cpu p_load)) l c
   end,
   {| mem := mem s;
      log := log s ++ flat_map (project_events ops sync this_cpu)
                        (for_each_cpu (nr_cpumask_bits ops) cpus) |}).
Proof.
  unfold cass_find_best, bind, ret.
  destruct (for_each_cpu (nr_cpumask_bits ops) cpus) as [| c l].
  - simpl. rewrite app_nil_r. destruct s; reflexivity.
  - simpl. unfold bind at 1.
    destruct (cass_loop_body_first cands0 c s) as [ls1 [E1 H1]].
    rewrite E1.
    set (s1 := {| mem := mem s; log := log s ++ project_events ops sync this_cpu c |}) in *.
    destruct (cass_loop_rest l ls1 c s1 H1) as [ls2 [E2 [_ [_ H2]]]].
    rewrite E2. simpl. rewrite H2. simpl. rewrite <- app_assoc. reflexivity.
Qed.

End Reduction.

(** ** The tier partition (lines 58-61) *)

Section Partition.
Context {K : Type} (ops : kernel K).

(** The two outcomes of lines 60-61. *)
Lemma cass_cpus_cases (adj : Z) :
  let tier := if (-1 <? adj) && (adj <? 225)
              then cpu_perf_mask ops else cpu_lp_mask ops in
  let inter := cpumask_and (nr_cpumask_bits ops) (cpu_online_mask ops) tier in
  (snd inter = true /\ cass_cpus ops adj = fst inter) \/
  (snd inter = false /\ cass_cpus ops adj = cpu_online_mask ops).
Proof.
  unfold cass_cpus. rewrite Z.gtb_ltb.
  set (tier := if (-1 <? adj) && (adj <? 225) then _ else _).
  simpl. unfold cpumask_and, cpumask_copy. simpl.
  destruct (_ =? 0); simpl; [right | left]; split; reflexivity.
Qed.

(** Every candidate is online. *)
Lemma cass_cpus_online (adj c : Z) :
  cpu_in (nr_cpumask_bits ops) c (cass_cpus ops adj) = true ->
  cpu_in (nr_cpumask_bits ops) c (cpu_online_mask ops) = true.
Proof.
  intros Hc. destruct (cass_cpus_cases adj) as [[_ E] | [_ E]];
    rewrite E in Hc; [| assumption].
  apply cpu_in_spec in Hc. destruct Hc as [Hr Hb].
  change (cpumask_test_cpu c
            (fst (cpumask_and (nr_cpumask_bits ops) (cpu_online_mask ops)
                    (if (-1 <? adj) && (adj <? 225)
                     then cpu_perf_mask ops else cpu_lp_mask ops))) = true) in Hb.
  rewrite cpumask_and_test in Hb by lia.
  apply andb_true_iff in Hb. tauto.
Qed.

(** With a CPU online there is a candidate. *)
Lemma cass_cpus_nonempty (adj : Z) :
  (exists c, cpu_in (nr_cpumask_bits ops) c (cpu_online_mask ops) = true) ->
  exists c, cpu_in (nr_cpumask_bits ops) c (cass_cpus ops adj) = true.
Proof.
  intros [c0 Hc0].
  assert (Hn : 0 <= nr_cpumask_bits ops) by (apply cpu_in_spec in Hc0; lia).
  destruct (cass_cpus_cases adj) as [[Hne E] | [_ E]]; rewrite E.
  - apply cpumask_and_nonempty; assumption.
  - exists c0. assumption.
Qed.

(** Claim C2: the candidate universe is the intersection of the online set with
    the performance tier when [oom_score_adj] lies strictly between -1 and
    225, and with the low-power tier otherwise; when that intersection is
    empty it is the whole online set; hence it is non-empty whenever a CPU
    is online. *)
Theorem cass_cpus_tier_partition (adj : Z) :
  0 <= nr_cpumask_bits ops ->
  let n := nr_cpumask_bits ops in
  let online := cpu_online_mask ops in
  let tier := if (-1 <? adj) && (adj <? 225)
              then cpu_perf_mask ops else cpu_lp_mask ops in
  ((exists c, cpu_in n c online && cpu_in n c tier = true) ->
   forall c, cpumask_test_cpu c (cass_cpus ops adj)
             = cpu_in n c online && cpu_in n c tier) /\
  ((forall c, cpu_in n c online && cpu_in n c tier = false) ->
   cass_cpus ops adj = online) /\
  ((exists c, cpu_in n c online = true) ->
   exists c, cpu_in n c (cass_cpus ops adj) = true).
Proof.
  intros Hn n online tier. split; [| split].
  - intros [c0 Hc0] c.
    destruct (cass_cpus_cases adj) as [[_ E] | [Hz _]].
    + rewrite E. apply cpumask_and_test. assumption.
    + pose proof (cpumask_and_empty _ _ _ c0 Hn Hz) as Hf.
      fold tier online n in Hf. congruence.
  - intros Hall. destruct (cass_cpus_cases adj) as [[Hne _] | [_ E]];
      [| exact E].
    destruct (cpumask_and_nonempty _ _ _ Hn Hne) as [c Hc].
    apply cpu_in_spec in Hc. destruct Hc as [_ Hc].
    change (cpumask_test_cpu c (fst (cpumask_and n online tier)) = true) in Hc.
    rewrite cpumask_and_test in Hc by assumption.
    rewrite Hall in Hc. discriminate Hc.
  - apply cass_cpus_nonempty.
Qed.

End Partition.

(** The partition of the concrete kernel: performance CPUs 0 and 1 for a
    foreground task, the online set when the low-power tier is offline. *)
Lemma cass_cpus_tier_partition_witness :
  0 <= 8 /\
  (forall c, cpumask_test_cpu c (cass_cpus (demo_kernel 15 0 0 [] 0 wa_none) 0)
             = cpu_in 8 c 15 && cpu_in 8 c 3) /\
  cass_cpus (demo_kernel 3 0 500 [] 0 wa_none) 500 = 3.
Proof.
  split; [lia |]. split.
  - apply (cass_cpus_tier_partition (demo_kernel 15 0 0 [] 0 wa_none) 0); [simpl; lia |].
    exists 0. reflexivity.
  - apply (cass_cpus_tier_partition (demo_kernel 3 0 500 [] 0 wa_none) 500); [simpl; lia |].
    intros c. simpl. unfold cpu_in, cpumask_test_cpu.
    destruct (0 <=? c) eqn:H0; [| reflexivity].
    destruct (c <? 8) eqn:H8; [| reflexivity].
    apply Z.leb_le in H0. apply Z.ltb_lt in H8.
    assert (Hc : c = 0 \/ c = 1 \/ c = 2 \/ c = 3 \/ c = 4 \/ c = 5 \/ c = 6 \/ c = 7) by lia.
    destruct Hc as [-> | [-> | [-> | [-> | [-> | [-> | [-> | ->]]]]]]]; reflexivity.
Defined.

(** ** The function as a whole *)

Lemma fold_pick_in (proj : Z -> Z) (l : list Z) (b : Z) :
  In (fold_left (pick proj) l b) (b :: l).
Proof.
  destruct (fold_pick_split proj l b) as [l1 [l2 [E _]]].
  rewrite E. apply in_or_app. right. left. reflexivity.
Qed.

Section Whole.
Context {K : Type} (ops : kernel K).
Variables (p : task) (prev_cpu sd_flag wake_flags sibling_count_hint : Z).

(** Lines 66-79, case by case. *)
Lemma cass_wake_affine_cases (sync this_cpu cpu : Z) (cpus : cpumask) (s : kstate K) :
  let k1 := record_wakee ops (mem s) p in
  let want := cass_want_affine (wake_wide ops k1 p sibling_count_hint) cpu cpus in
  let wa_cpu := wake_affine_idle ops k1 this_cpu prev_cpu sync in
  let asked := [EvRecordWakee p; EvWakeWide p sibling_count_hint] in
  cass_wake_affine ops p prev_cpu sd_flag wake_flags sibling_count_hint
    sync this_cpu cpu cpus s =
  if is_wakeup ops sd_flag wake_flags then
    if truthy want then
      if wa_cpu =? nr_cpumask_bits ops then
        (None, want,
         {| mem := k1;
            log := log s ++ asked ++ [EvWakeAffineIdle this_cpu prev_cpu sync] |})
      else
        (Some (select_idle_sibling ops k1 p prev_cpu wa_cpu), want,
         {| mem := k1;
            log := log s ++ asked ++ [EvWakeAffineIdle this_cpu prev_cpu sync;
                                      EvSelectIdleSibling p prev_cpu wa_cpu] |})
    else (None, want, {| mem := k1; log := log s ++ asked |})
  else (None, 0, s).
Proof.
  intros k1 want wa_cpu asked.
  unfold cass_wake_affine, is_wakeup, bind, update, read, ret. simpl.
  destruct (_ || _); [| reflexivity].
  fold k1. fold want. destruct (truthy want); simpl.
  - fold wa_cpu. destruct (wa_cpu =? nr_cpumask_bits ops); simpl;
      rewrite <- ?app_assoc; reflexivity.
  - rewrite Z.eqb_refl. simpl. rewrite <- ?app_assoc. reflexivity.
Qed.

(** Lines 85-88, case by case. *)
Lemma cass_p_load_cases (s : kstate K) :
  cass_p_load ops p sd_flag wake_flags s =
  if is_fork ops sd_flag wake_flags then (0, s)
  else
    let k2 := sync_entity_load_avg ops (mem s) p in
    (h_load ops k2 p,
     {| mem := k2; log := log s ++ [EvSyncEntityLoadAvg p; EvTaskHLoad p] |}).
Proof.
  unfold cass_p_load, is_fork, bind, update, read, ret.
  destruct (truthy (Z.land sd_flag _)), (truthy (Z.land wake_flags _)); simpl;
    rewrite <- ?app_assoc; reflexivity.
Qed.

(** The function is the wake-affine block followed, when that block does
    not return, by the load of the task and the loop. *)
Lemma cass_select_cases (cpu0 : Z) (cands0 : cands_t) (s : kstate K) :
  let sync0 := cass_sync_init ops wake_flags (task_flags ops (mem s) (current ops)) in
  let p_queued := cass_p_queued ops (task_on_rq_queued ops (mem s) p) p in
  let this_cpu := smp_processor_id ops in
  let cpus := cass_cpus ops (oom_score_adj ops (mem s) p) in
  let wa := cass_wake_affine ops p prev_cpu sd_flag wake_flags sibling_count_hint
              sync0 this_cpu cpu0 cpus s in
  cass_select_task_rq_fair ops p prev_cpu sd_flag wake_flags sibling_count_hint
    cpu0 cands0 s =
  match fst (fst wa) with
  | Some r => (r, snd wa)
  | None =>
      (p_load <- cass_p_load ops p sd_flag wake_flags ;;
       cass_find_best ops (Z.land sync0 (snd (fst wa))) p_queued prev_cpu this_cpu
         p_load cpus cands0) (snd wa)
  end.
Proof.
  intros sync0 p_queued this_cpu cpus wa.
  unfold cass_select_task_rq_fair, peek. unfold bind at 1 2 3 4. simpl.
  fold sync0 p_queued this_cpu cpus wa.
  destruct wa as [[[r |] w] s1]; reflexivity.
Qed.

(** Claim C1: with a CPU online, a call that does not leave through the idle
    path returns a member of the candidate universe of the tier partition,
    hence an online CPU; a call that leaves through the idle path returns
    the answer of [select_idle_sibling] for the CPU that
    [wake_affine_idle] found. *)
Theorem cass_result_membership (cpu0 : Z) (cands0 : cands_t) (s : kstate K) :
  let n := nr_cpumask_bits ops in
  let sync0 := cass_sync_init ops wake_flags (task_flags ops (mem s) (current ops)) in
  let cpus := cass_cpus ops (oom_score_adj ops (mem s) p) in
  let k1 := record_wakee ops (mem s) p in
  let r := fst (cass_select_task_rq_fair ops p prev_cpu sd_flag wake_flags
                  sibling_count_hint cpu0 cands0 s) in
  (exists c, cpu_in n c (cpu_online_mask ops) = true) ->
  match fst (fst (cass_wake_affine ops p prev_cpu sd_flag wake_flags
                    sibling_count_hint sync0 (smp_processor_id ops) cpu0 cpus s)) with
  | None => cpu_in n r cpus = true /\ cpu_in n r (cpu_online_mask ops) = true
  | Some r' =>
      r = r' /\
      r' = select_idle_sibling ops k1 p prev_cpu
             (wake_affine_idle ops k1 (smp_processor_id ops) prev_cpu sync0)
  end.
Proof.
  intros n sync0 cpus k1 r Hon. subst r.
  rewrite cass_select_cases. fold sync0 cpus.
  destruct (fst (fst (cass_wake_affine _ _ _ _ _ _ _ _ _ _ _))) as [r' |] eqn:Hwa.
  - split; [reflexivity |].
    rewrite cass_wake_affine_cases in Hwa. fold k1 in Hwa.
    destruct (is_wakeup _ _ _); [| discriminate Hwa].
    destruct (truthy _); [| discriminate Hwa].
    destruct (_ =? _); [discriminate Hwa |].
    simpl in Hwa. congruence.
  - unfold bind. rewrite cass_p_load_cases.
    set (s1 := snd _).
    assert (Hin : forall pl s2,
      In (fst (cass_find_best ops (Z.land sync0 (snd (fst (cass_wake_affine ops p prev_cpu sd_flag wake_flags sibling_count_hint sync0 (smp_processor_id ops) cpu0 cpus s))))
                 (cass_p_queued ops (task_on_rq_queued ops (mem s) p) p) prev_cpu
                 (smp_processor_id ops) pl cpus cands0 s2))
         (for_each_cpu n cpus)).
    { intros pl s2. rewrite cass_find_best_run. simpl.
      destruct (cass_cpus_nonempty ops (oom_score_adj ops (mem s) p) Hon) as [c Hc].
      fold cpus n in Hc. apply in_for_each_cpu in Hc. fold n.
      destruct (for_each_cpu n cpus) as [| c1 l]; [destruct Hc |].
      apply fold_pick_in. }
    assert (Hgoal : forall x, In x (for_each_cpu n cpus) ->
              cpu_in n x cpus = true /\ cpu_in n x (cpu_online_mask ops) = true).
    { intros x Hx. apply in_for_each_cpu in Hx. split; [assumption |].
      apply (cass_cpus_online ops (oom_score_adj ops (mem s) p)). assumption. }
    destruct (is_fork _ _ _); simpl; apply Hgoal, Hin.
Qed.

End Whole.

(** CPUs 0 and 1 online, the task last ran on CPU 5, which has gone
    offline and is found idle: the idle path hands back CPU 5, which is not
    online. *)
Lemma cass_result_offline :
  (exists c, cpu_in 8 c 3 = true) /\
  cpu_in 8
    (fst (cass_select_task_rq_fair (demo_kernel 3 0 0 [40; 40] 10 wa_prev)
            200 5 16 0 2 0 demo_cands demo_start))
    (cpu_online_mask (demo_kernel 3 0 0 [40; 40] 10 wa_prev)) = false.
Proof. split; [exists 0; reflexivity | vm_compute; reflexivity]. Qed.

(** On the same kernel with no idle CPU found, the loop returns CPU 1, a
    candidate and online. *)
Lemma cass_result_membership_witness :
  (exists c, cpu_in 8 c 3 = true) /\
  cpu_in 8
    (fst (cass_select_task_rq_fair (demo_kernel 3 0 0 [40; 40] 10 wa_none)
            200 5 16 0 2 0 demo_cands demo_start)) 3 = true.
Proof.
  assert (Hon : exists c, cpu_in 8 c 3 = true) by (exists 0; reflexivity).
  split; [exact Hon |].
  exact (proj2 (cass_result_membership (demo_kernel 3 0 0 [40; 40] 10 wa_none)
                  200 5 16 0 2 0 demo_cands demo_start Hon)).
Defined.

(** ** The reducer and its tie-break *)

Section TieBreak.
Context {K : Type} (ops : kernel K).
Variables sync p_queued prev_cpu this_cpu p_load : Z.

(** Claim C3: over a non-empty candidate universe visited in ascending CPU id
    order, the running best starts at the first candidate and is replaced
    by each later candidate whose projected load is less than or equal to
    its own; the CPU returned is a candidate of minimum projected load, and
    among the candidates of that load it is the one with the highest id. *)
Theorem cass_find_best_last_minimum (cpus : cpumask) (cands0 : cands_t) (s : kstate K) :
  let n := nr_cpumask_bits ops in
  let proj := cass_projected ops (mem s) sync p_queued prev_cpu this_cpu p_load in
  let r := fst (cass_find_best ops sync p_queued prev_cpu this_cpu p_load
                  cpus cands0 s) in
  (exists c, cpu_in n c cpus = true) ->
  ascending (for_each_cpu n cpus) /\
  (exists c l, for_each_cpu n cpus = c :: l /\ r = fold_left (pick proj) l c) /\
  cpu_in n r cpus = true /\
  (forall c, cpu_in n c cpus = true -> proj r <= proj c) /\
  (forall c, cpu_in n c cpus = true -> proj c = proj r -> c <= r).
Proof.
  intros n proj r [c0 Hc0]. subst r. rewrite cass_find_best_run. simpl.
  fold n proj. pose proof (ascending_for_each_cpu n cpus) as Hasc.
  split; [exact Hasc |].
  assert (Hmem : forall c, cpu_in n c cpus = true -> In c (for_each_cpu n cpus))
    by (intros c; apply in_for_each_cpu).
  assert (Hmem' : forall c, In c (for_each_cpu n cpus) -> cpu_in n c cpus = true)
    by (intros c; apply in_for_each_cpu).
  destruct (for_each_cpu n cpus) as [| c1 l]; [destruct (Hmem c0 Hc0) |].
  destruct (fold_pick_split proj l c1) as [l1 [l2 [E [Hle Hlt]]]].
  set (r := fold_left (pick proj) l c1) in *.
  split; [exists c1, l; split; reflexivity |].
  split; [apply Hmem'; rewrite E; apply in_or_app; right; left; reflexivity |].
  split.
  - intros c Hc. apply Hmem in Hc. rewrite E in Hc. apply in_app_or in Hc.
    destruct Hc as [Hc | [<- | Hc]].
    + apply Hle, Hc.
    + lia.
    + specialize (Hlt c Hc). lia.
  - intros c Hc Heq. apply Hmem in Hc. rewrite E in Hc. apply in_app_or in Hc.
    destruct Hc as [Hc | [<- | Hc]].
    + apply in_split in Hc. destruct Hc as [la [lb ->]].
      assert (c < r); [| lia].
      apply (Hasc la c (lb ++ r :: l2) r).
      * rewrite E, <- app_assoc. reflexivity.
      * apply in_or_app. right. left. reflexivity.
    + lia.
    + specialize (Hlt c Hc). lia.
Qed.

End TieBreak.

(** Four CPUs with projected loads 70 50 50 60: CPUs 1 and 2 tie at the
    minimum and CPU 2 is returned. *)
Lemma cass_find_best_last_minimum_witness :
  (exists c, cpu_in 8 c 15 = true) /\
  fst (cass_find_best (demo_kernel 15 0 0 [70; 50; 50; 60] 0 wa_none)
         0 0 0 0 0 15 demo_cands demo_start) = 2 /\
  (forall c, cpu_in 8 c 15 = true ->
     cass_projected (demo_kernel 15 0 0 [70; 50; 50; 60] 0 wa_none)
       (mem demo_start) 0 0 0 0 0 c = 50 -> c <= 2).
Proof.
  assert (Hne : exists c, cpu_in 8 c 15 = true) by (exists 0; reflexivity).
  split; [exact Hne |]. split; [vm_compute; reflexivity |].
  exact (proj2 (proj2 (proj2 (proj2
    (cass_find_best_last_minimum (demo_kernel 15 0 0 [70; 50; 50; 60] 0 wa_none)
       0 0 0 0 0 15 demo_cands demo_start Hne))))).
Defined.

(** ** The projection rules *)

Section Rules.
Context {K : Type} (ops : kernel K).
Variables (prev_cpu this_cpu p_load : Z).
Variables (cs : cands_t) (curr c : Z) (s : kstate K).

(** Claim C4: in synchronous mode the load stored for a candidate is its
    current load, plus the load of the task (in [unsigned long]
    arithmetic) unless the candidate is the previous CPU, minus the load of
    the waking task when the candidate is the waking CPU, the subtraction
    saturating at zero: the result is never negative, and when the sum does
    not exceed [ULONG_MAX] it is the integer
    [max 0 (load + task load - waker load)]. *)
Theorem cass_project_sync (sync p_queued : Z) :
  truthy sync = true -> 0 <= p_load ->
  let base := cpu_load ops (mem s) c in
  let add := if c =? prev_cpu then 0 else p_load in
  let sub := if c =? this_cpu then h_load ops (mem s) (current ops) else 0 in
  let proj := cand_load (slot (fst (cass_project ops sync p_queued prev_cpu
                                      this_cpu p_load cs curr c s)) curr) in
  proj = Z.max 0 (ulong (base + add) - sub) /\
  0 <= proj /\
  (base + add <= ULONG_MAX -> proj = Z.max 0 (base + add - sub)).
Proof.
  intros Hsync Hp base add sub proj.
  assert (E : proj = Z.max 0 (ulong (base + add) - sub)).
  { subst proj. rewrite cass_project_run. simpl. rewrite slot_slot_put. simpl.
    rewrite cass_projected_eq, Hsync. fold base. subst add sub. simpl.
    pose proof (ulong_range (rq_load_avg ops (mem s) c)) as Hb. fold (cpu_load ops (mem s) c) in Hb.
    fold base in Hb.
    pose proof (ulong_range (task_h_load ops (mem s) (current ops))) as Hw.
    fold (h_load ops (mem s) (current ops)) in Hw.
    pose proof (ulong_range (base + p_load)) as Ha.
    unfold ulong_add.
    destruct (c =? prev_cpu), (c =? this_cpu);
      rewrite ?Z.add_0_r, ?Z.sub_0_r, ?(ulong_small base Hb);
      rewrite ?lsub_positive_sat by assumption; lia. }
  split; [exact E |]. split; [rewrite E; lia |].
  intros Hsum. rewrite E. rewrite ulong_small; [reflexivity |].
  assert (0 <= base) by apply ulong_range.
  subst add. destruct (c =? prev_cpu); lia.
Qed.

(** Claim C5: outside synchronous mode, for a queued task the load of the task
    is added exactly on the candidates other than the previous CPU, and for
    a task that is not queued it is added on every candidate. *)
Theorem cass_project_async (sync p_queued : Z) :
  truthy sync = false ->
  let base := cpu_load ops (mem s) c in
  let proj := cand_load (slot (fst (cass_project ops sync p_queued prev_cpu
                                      this_cpu p_load cs curr c s)) curr) in
  (truthy p_queued = true -> c <> prev_cpu -> proj = ulong_add base p_load) /\
  (truthy p_queued = true -> c = prev_cpu -> proj = base) /\
  (truthy p_queued = false -> proj = ulong_add base p_load).
Proof.
  intros Hsync base proj. subst proj.
  rewrite cass_project_run. simpl. rewrite slot_slot_put. simpl.
  rewrite cass_projected_eq, Hsync. fold base.
  split; [| split].
  - intros -> Hc. apply Z.eqb_neq in Hc. rewrite Hc. reflexivity.
  - intros -> Hc. apply Z.eqb_eq in Hc. rewrite Hc. reflexivity.
  - intros ->. reflexivity.
Qed.

(** Claim C10: a task counts as queued when it is enqueued or when it is the
    task running on the calling CPU ([current == p]); outside synchronous
    mode its load is then added on the candidates other than its previous
    CPU only, never on the previous CPU. *)
Theorem cass_p_queued_current (p : task) (on_rq sync : Z) :
  truthy on_rq = true \/ current ops = p ->
  truthy sync = false ->
  let p_queued := cass_p_queued ops on_rq p in
  let base := cpu_load ops (mem s) c in
  let proj := cand_load (slot (fst (cass_project ops sync p_queued prev_cpu
                                      this_cpu p_load cs curr c s)) curr) in
  truthy p_queued = true /\
  (c <> prev_cpu -> proj = ulong_add base p_load) /\
  (c = prev_cpu -> proj = base).
Proof.
  intros Hq Hsync p_queued base proj.
  assert (Hpq : truthy p_queued = true).
  { subst p_queued. unfold cass_p_queued, c_or. rewrite !truthy_of_bool.
    destruct Hq as [-> | ->]; [reflexivity |].
    rewrite Z.eqb_refl. apply orb_true_r. }
  split; [exact Hpq |]. subst proj.
  rewrite cass_project_run. simpl. rewrite slot_slot_put. simpl.
  rewrite cass_projected_eq, Hsync, Hpq. fold base. split.
  - intros Hc. apply Z.eqb_neq in Hc. rewrite Hc. reflexivity.
  - intros Hc. apply Z.eqb_eq in Hc. rewrite Hc. reflexivity.
Qed.

End Rules.

(** Synchronous wakeup on CPU 0, which is also the previous CPU, with load
    5 and a waker of load 15: the projected load saturates at 0. *)
Lemma cass_project_sync_witness :
  truthy 1 = true /\ 0 <= 10 /\
  cand_load (slot (fst (cass_project (demo_kernel 3 0 0 [5; 40] 10 wa_none)
                          1 0 0 0 10 demo_cands 0 0 demo_start)) 0) = 0.
Proof.
  assert (H1 : truthy 1 = true) by reflexivity.
  assert (H2 : 0 <= 10) by lia.
  split; [exact H1 |]. split; [exact H2 |].
  exact (proj1 (cass_project_sync (demo_kernel 3 0 0 [5; 40] 10 wa_none)
                  0 0 10 demo_cands 0 0 demo_start 1 0 H1 H2)).
Defined.

(** A queued task of load 10 whose previous CPU is 1: CPU 0 with load 40
    projects to 50. *)
Lemma cass_project_async_witness :
  truthy 0 = false /\
  cand_load (slot (fst (cass_project (demo_kernel 3 0 0 [40; 40] 10 wa_none)
                          0 1 1 0 10 demo_cands 1 0 demo_start)) 1) = 50.
Proof.
  assert (H1 : truthy 0 = false) by reflexivity.
  assert (H2 : 0 <> 1) by discriminate.
  split; [exact H1 |].
  exact (proj1 (cass_project_async (demo_kernel 3 0 0 [40; 40] 10 wa_none)
                  1 0 10 demo_cands 1 0 demo_start 0 1 H1) eq_refl H2).
Defined.

(** The running task 100 places itself while not enqueued: its previous
    CPU 1 keeps its load of 40. *)
Lemma cass_p_queued_current_witness :
  (truthy 0 = true \/ current (demo_kernel 3 0 0 [40; 40] 10 wa_none) = 100) /\
  truthy 0 = false /\
  cand_load (slot (fst (cass_project (demo_kernel 3 0 0 [40; 40] 10 wa_none)
                          0 (cass_p_queued (demo_kernel 3 0 0 [40; 40] 10 wa_none) 0 100)
                          1 0 10 demo_cands 0 1 demo_start)) 0) = 40.
Proof.
  assert (H1 : truthy 0 = true \/ current (demo_kernel 3 0 0 [40; 40] 10 wa_none) = 100)
    by (right; reflexivity).
  assert (H2 : truthy 0 = false) by reflexivity.
  split; [exact H1 |]. split; [exact H2 |].
  exact (proj2 (proj2 (cass_p_queued_current (demo_kernel 3 0 0 [40; 40] 10 wa_none)
                         1 0 10 demo_cands 0 1 demo_start 100 0 0 H1 H2)) eq_refl).
Defined.

(** ** The idle path and the refresh of the task load *)

(** The running best only depends on the loads of the CPUs. *)
Lemma fold_pick_ext (f g : Z -> Z) (l : list Z) (b : Z) :
  (forall c, f c = g c) ->
  fold_left (pick f) l b = fold_left (pick g) l b.
Proof.
  intros H. revert b. induction l as [| x l IH]; intros b; [reflexivity |].
  simpl. unfold pick at 2 4. rewrite !H. apply IH.
Qed.

(** In a list that continues [a ++ y :: b], an item absent from [a] and
    different from [y] can only occur after [y]. *)
Lemma occurs_after {A : Type} (a b l1 l2 : list A) (x y : A) :
  l1 ++ x :: l2 = a ++ y :: b -> ~ In x a -> x <> y -> In y l1.
Proof.
  revert l1. induction a as [| a0 a IH]; intros l1 E Hx Hxy.
  - destruct l1 as [| z l1]; simpl in E; inversion E; subst.
    + contradiction.
    + left. reflexivity.
  - destruct l1 as [| z l1]; simpl in E; inversion E; subst.
    + exfalso. apply Hx. left. reflexivity.
    + right. apply IH; [assumption | | assumption].
      intros Hin. apply Hx. right. exact Hin.
Qed.

Section Paths.
Context {K : Type} (ops : kernel K).
Variables (p : task) (prev_cpu sd_flag wake_flags sibling_count_hint : Z).

Lemma cass_wake_affine_log (sync this_cpu cpu : Z) (cpus : cpumask) (s : kstate K) :
  exists tw,
    log (snd (cass_wake_affine ops p prev_cpu sd_flag wake_flags
                sibling_count_hint sync this_cpu cpu cpus s)) = log s ++ tw /\
    forallb is_wake_event tw = true.
Proof.
  rewrite cass_wake_affine_cases.
  destruct (is_wakeup _ _ _).
  - destruct (truthy _).
    + destruct (_ =? _); simpl; eexists; split; reflexivity.
    + simpl. eexists. split; reflexivity.
  - exists []. simpl. rewrite app_nil_r. split; reflexivity.
Qed.

Lemma project_events_loads (sync this_cpu : Z) (l : list Z) :
  forallb is_load_event (flat_map (project_events ops sync this_cpu) l) = true.
Proof.
  induction l as [| c l IH]; [reflexivity |].
  simpl. unfold project_events at 1. simpl.
  destruct (truthy sync && (c =? this_cpu)); simpl; exact IH.
Qed.

(** The log of a call: the events of the wake-affine block and then, unless
    the call left through the idle path, the refresh (unless the call is a
    task creation) followed by reads of loads. *)
Lemma cass_select_log (cpu0 : Z) (cands0 : cands_t) (s : kstate K) :
  exists tw tl,
    forallb is_wake_event tw = true /\ forallb is_load_event tl = true /\
    log (snd (cass_select_task_rq_fair ops p prev_cpu sd_flag wake_flags
                sibling_count_hint cpu0 cands0 s)) =
    log s ++ tw ++
      (if is_fork ops sd_flag wake_flags then tl
       else match tl with [] => [] | _ => EvSyncEntityLoadAvg p :: tl end).
Proof.
  rewrite cass_select_cases.
  match goal with |- context [cass_wake_affine ?a ?b ?c ?d ?e ?f ?g ?h ?i ?j ?k] =>
    destruct (cass_wake_affine_log g h i j k) as [tw [Etw Htw]];
    destruct (cass_wake_affine a b c d e f g h i j k) as [[[r |] w] s1]
  end; simpl in *.
  - exists tw, []. split; [assumption |]. split; [reflexivity |].
    rewrite Etw. destruct (is_fork _ _ _); rewrite app_nil_r; reflexivity.
  - unfold bind. rewrite cass_p_load_cases.
    destruct (is_fork _ _ _); simpl; rewrite cass_find_best_run; simpl.
    + eexists tw, _. split; [assumption |].
      split; [apply project_events_loads |].
      rewrite Etw, <- app_assoc. reflexivity.
    + exists tw. eexists (EvTaskHLoad p :: _). split; [assumption |].
      split; [simpl; apply project_events_loads |].
      rewrite Etw, <- !app_assoc. reflexivity.
Qed.

(** With a task load of 0 the projected load is the current load of the
    CPU, lowered only by the synchronous-mode rule on the waking CPU. *)
Lemma cass_projected_no_load (k : K) (sync p_queued this_cpu c : Z) :
  cass_projected ops k sync p_queued prev_cpu this_cpu 0 c =
  if truthy sync && (c =? this_cpu)
  then lsub_positive (cpu_load ops k c) (h_load ops k (current ops))
  else cpu_load ops k c.
Proof.
  rewrite cass_projected_eq.
  assert (E0 : ulong_add (cpu_load ops k c) 0 = cpu_load ops k c).
  { unfold ulong_add, cpu_load. rewrite Z.add_0_r. apply ulong_idem. }
  rewrite E0.
  destruct (truthy sync), (truthy p_queued), (c =? prev_cpu), (c =? this_cpu);
    reflexivity.
Qed.

(** Claim C8: on a task-creation call no [sync_entity_load_avg] is performed and
    the load of the task is 0 throughout: the loop of the call compares the
    current loads of the CPUs, lowered only by the synchronous-mode rule on
    the waking CPU, and the CPU returned is the running best over those.  On
    any other call that reads a runqueue load, the refresh of the task load
    comes first, and the loop of the call projects every candidate with the
    load read after the refresh. *)
Theorem cass_task_load_refresh (cpu0 : Z) (cands0 : cands_t) (s : kstate K) :
  let sync0 := cass_sync_init ops wake_flags (task_flags ops (mem s) (current ops)) in
  let p_queued := cass_p_queued ops (task_on_rq_queued ops (mem s) p) p in
  let this_cpu := smp_processor_id ops in
  let cpus := cass_cpus ops (oom_score_adj ops (mem s) p) in
  let wa := cass_wake_affine ops p prev_cpu sd_flag wake_flags
              sibling_count_hint sync0 this_cpu cpu0 cpus s in
  let sync := Z.land sync0 (snd (fst wa)) in
  let k1 := mem (snd wa) in
  let out := cass_select_task_rq_fair ops p prev_cpu sd_flag wake_flags
               sibling_count_hint cpu0 cands0 s in
  (is_fork ops sd_flag wake_flags = true ->
     (forall pre q post,
        log (snd out) <> log s ++ pre ++ EvSyncEntityLoadAvg q :: post) /\
     (forall s', cass_p_load ops p sd_flag wake_flags s' = (0, s')) /\
     (forall k sync p_queued this_cpu c,
        cass_projected ops k sync p_queued prev_cpu this_cpu 0 c =
        if truthy sync && (c =? this_cpu)
        then lsub_positive (cpu_load ops k c) (h_load ops k (current ops))
        else cpu_load ops k c) /\
     (fst (fst wa) = None ->
        fst out =
        match for_each_cpu (nr_cpumask_bits ops) cpus with
        | [] => cand_cpu (fst cands0)
        | c :: l =>
            fold_left
              (pick (fun c =>
                       if truthy sync && (c =? this_cpu)
                       then lsub_positive (cpu_load ops k1 c)
                              (h_load ops k1 (current ops))
                       else cpu_load ops k1 c)) l c
        end)) /\
  (is_fork ops sd_flag wake_flags = false ->
     (forall pre c post,
        log (snd out) = log s ++ pre ++ EvRqLoadAvg c :: post ->
        In (EvSyncEntityLoadAvg p) pre) /\
     (forall s',
        cass_p_load ops p sd_flag wake_flags s' =
        (h_load ops (sync_entity_load_avg ops (mem s') p) p,
         {| mem := sync_entity_load_avg ops (mem s') p;
            log := log s' ++ [EvSyncEntityLoadAvg p; EvTaskHLoad p] |})) /\
     (fst (fst wa) = None ->
        let k2 := sync_entity_load_avg ops k1 p in
        fst out =
        match for_each_cpu (nr_cpumask_bits ops) cpus with
        | [] => cand_cpu (fst cands0)
        | c :: l =>
            fold_left
              (pick (cass_projected ops k2 sync p_queued prev_cpu this_cpu
                       (h_load ops k2 p))) l c
        end)).
Proof.
  intros sync0 p_queued this_cpu cpus wa sync k1 out.
  assert (Eout : out =
    match fst (fst wa) with
    | Some r => (r, snd wa)
    | None =>
        (p_load <- cass_p_load ops p sd_flag wake_flags ;;
         cass_find_best ops sync p_queued prev_cpu this_cpu p_load cpus cands0)
          (snd wa)
    end) by apply cass_select_cases.
  destruct (cass_select_log cpu0 cands0 s) as [tw [tl [Htw [Htl Elog]]]].
  fold out in Elog.
  rewrite forallb_forall in Htw, Htl.
  split; intros Hfork; rewrite Hfork in Elog.
  - split; [| split; [| split]].
    + intros pre q post E. rewrite E in Elog. apply app_inv_head in Elog.
      assert (Hin : In (EvSyncEntityLoadAvg q) (tw ++ tl))
        by (rewrite <- Elog; apply in_or_app; right; left; reflexivity).
      apply in_app_or in Hin. destruct Hin as [Hin | Hin].
      * specialize (Htw _ Hin). discriminate Htw.
      * specialize (Htl _ Hin). discriminate Htl.
    + intros s'. rewrite cass_p_load_cases, Hfork. reflexivity.
    + intros k sy pq tc c. apply cass_projected_no_load.
    + intros Hnone. rewrite Eout, Hnone. unfold bind.
      rewrite cass_p_load_cases, Hfork, cass_find_best_run. cbn [fst].
      fold k1. destruct (for_each_cpu (nr_cpumask_bits ops) cpus) as [| c l];
        [reflexivity |].
      apply fold_pick_ext. intros x. apply cass_projected_no_load.
  - split; [| split].
    + intros pre c post E. rewrite E in Elog. apply app_inv_head in Elog.
      assert (Hno : ~ In (EvRqLoadAvg c) tw).
      { intros Hin. specialize (Htw _ Hin). discriminate Htw. }
      destruct tl as [| e tl].
      * exfalso. apply Hno. rewrite app_nil_r in Elog. rewrite <- Elog.
        apply in_or_app. right. left. reflexivity.
      * apply (occurs_after _ _ _ _ _ _ Elog Hno). discriminate.
    + intros s'. rewrite cass_p_load_cases, Hfork. reflexivity.
    + intros Hnone k2. rewrite Eout, Hnone. unfold bind.
      rewrite cass_p_load_cases, Hfork. cbv beta iota zeta.
      rewrite cass_find_best_run. reflexivity.
Qed.

End Paths.

(** A task creation ([SD_BALANCE_FORK]) by the running task 100, whose
    load is 15 and whose previous CPU is 1, over CPUs 0 and 1 with loads 40
    and 50: the load of the task is not added anywhere and CPU 0 is
    returned (with the load added off the previous CPU, CPU 0 would
    project to 55 and lose). *)
Lemma cass_task_load_refresh_witness :
  is_fork (demo_kernel 3 0 0 [40; 50] 10 wa_none) 8 0 = true /\
  fst (fst (cass_wake_affine (demo_kernel 3 0 0 [40; 50] 10 wa_none)
              100 1 8 0 0 0 0 0 3 demo_start)) = None /\
  fst (cass_select_task_rq_fair (demo_kernel 3 0 0 [40; 50] 10 wa_none)
         100 1 8 0 0 0 demo_cands demo_start) = 0.
Proof.
  assert (H : is_fork (demo_kernel 3 0 0 [40; 50] 10 wa_none) 8 0 = true)
    by reflexivity.
  assert (Hn : fst (fst (cass_wake_affine (demo_kernel 3 0 0 [40; 50] 10 wa_none)
                           100 1 8 0 0 0 0 0 3 demo_start)) = None)
    by reflexivity.
  split; [exact H |]. split; [exact Hn |].
  exact (proj2 (proj2 (proj2 (proj1
    (cass_task_load_refresh (demo_kernel 3 0 0 [40; 50] 10 wa_none)
       100 1 8 0 0 0 demo_cands demo_start) H))) Hn).
Defined.

Section IdlePath.
Context {K : Type} (ops : kernel K).
Variables (p : task) (prev_cpu sd_flag wake_flags sibling_count_hint : Z).

(** Claim C7: on a wakeup call on which [wake_affine_idle] is consulted: when it
    answers a CPU other than the sentinel [nr_cpumask_bits], the function
    returns at once what [select_idle_sibling] answers for that CPU, reads
    no load, and returns the same CPU whatever the runqueue loads are; when
    it answers the sentinel, the function goes on to the load of the task
    and the loop. *)
Theorem cass_idle_short_circuit (cpu0 : Z) (cands0 : cands_t) (s : kstate K) :
  let k1 := record_wakee ops (mem s) p in
  let this_cpu := smp_processor_id ops in
  let sync0 := cass_sync_init ops wake_flags (task_flags ops (mem s) (current ops)) in
  let p_queued := cass_p_queued ops (task_on_rq_queued ops (mem s) p) p in
  let cpus := cass_cpus ops (oom_score_adj ops (mem s) p) in
  let want := cass_want_affine (wake_wide ops k1 p sibling_count_hint) cpu0 cpus in
  let wa_cpu := wake_affine_idle ops k1 this_cpu prev_cpu sync0 in
  let asked := [EvRecordWakee p; EvWakeWide p sibling_count_hint;
                EvWakeAffineIdle this_cpu prev_cpu sync0] in
  is_wakeup ops sd_flag wake_flags = true ->
  truthy want = true ->
  (wa_cpu <> nr_cpumask_bits ops ->
   cass_select_task_rq_fair ops p prev_cpu sd_flag wake_flags
     sibling_count_hint cpu0 cands0 s =
   (select_idle_sibling ops k1 p prev_cpu wa_cpu,
    {| mem := k1;
       log := log s ++ asked ++ [EvSelectIdleSibling p prev_cpu wa_cpu] |}) /\
   forall f,
     fst (cass_select_task_rq_fair (with_rq_load_avg ops f) p prev_cpu sd_flag
            wake_flags sibling_count_hint cpu0 cands0 s) =
     select_idle_sibling ops k1 p prev_cpu wa_cpu) /\
  (wa_cpu = nr_cpumask_bits ops ->
   cass_select_task_rq_fair ops p prev_cpu sd_flag wake_flags
     sibling_count_hint cpu0 cands0 s =
   (p_load <- cass_p_load ops p sd_flag wake_flags ;;
    cass_find_best ops (Z.land sync0 want) p_queued prev_cpu this_cpu p_load
      cpus cands0) {| mem := k1; log := log s ++ asked |}).
Proof.
  intros k1 this_cpu sync0 p_queued cpus want wa_cpu asked Hwake Hwant.
  assert (Hrun : forall ops' : kernel K,
    is_wakeup ops' sd_flag wake_flags = true ->
    truthy (cass_want_affine
              (wake_wide ops' (record_wakee ops' (mem s) p) p sibling_count_hint)
              cpu0 (cass_cpus ops' (oom_score_adj ops' (mem s) p))) = true ->
    wake_affine_idle ops' (record_wakee ops' (mem s) p) (smp_processor_id ops')
      prev_cpu (cass_sync_init ops' wake_flags (task_flags ops' (mem s) (current ops')))
      <> nr_cpumask_bits ops' ->
    cass_select_task_rq_fair ops' p prev_cpu sd_flag wake_flags
      sibling_count_hint cpu0 cands0 s =
    (select_idle_sibling ops' (record_wakee ops' (mem s) p) p prev_cpu
       (wake_affine_idle ops' (record_wakee ops' (mem s) p) (smp_processor_id ops')
          prev_cpu (cass_sync_init ops' wake_flags (task_flags ops' (mem s) (current ops')))),
     {| mem := record_wakee ops' (mem s) p;
        log := log s ++
          [EvRecordWakee p; EvWakeWide p sibling_count_hint;
           EvWakeAffineIdle (smp_processor_id ops') prev_cpu
             (cass_sync_init ops' wake_flags (task_flags ops' (mem s) (current ops')));
           EvSelectIdleSibling p prev_cpu
             (wake_affine_idle ops' (record_wakee ops' (mem s) p) (smp_processor_id ops')
                prev_cpu (cass_sync_init ops' wake_flags (task_flags ops' (mem s) (current ops'))))] |})).
  { intros ops' Hw Ha Hne. rewrite cass_select_cases, cass_wake_affine_cases.
    rewrite Hw, Ha. apply Z.eqb_neq in Hne. rewrite Hne. reflexivity. }
  split.
  - intros Hne. split.
    + apply (Hrun ops Hwake Hwant Hne).
    + intros f. rewrite (Hrun (with_rq_load_avg ops f) Hwake Hwant Hne).
      reflexivity.
  - intros Heq. rewrite cass_select_cases, cass_wake_affine_cases.
    fold k1 this_cpu sync0 cpus want wa_cpu.
    rewrite Hwake, Hwant. apply Z.eqb_eq in Heq. rewrite Heq. reflexivity.
Qed.

End IdlePath.

(** The fourth scenario: the previous CPU 2 is found idle; it is returned,
    also when the runqueue loads are replaced by others. *)
Lemma cass_idle_short_circuit_witness :
  is_wakeup (demo_kernel 15 0 0 [1; 2; 3; 4] 10 wa_prev) 16 0 = true /\
  truthy (cass_want_affine 0 0 3) = true /\
  2 <> 8 /\
  fst (cass_select_task_rq_fair
         (with_rq_load_avg (demo_kernel 15 0 0 [1; 2; 3; 4] 10 wa_prev)
            (fun _ c => 1000 - c))
         200 2 16 0 2 0 demo_cands demo_start) = 2.
Proof.
  assert (H1 : is_wakeup (demo_kernel 15 0 0 [1; 2; 3; 4] 10 wa_prev) 16 0 = true)
    by reflexivity.
  assert (H2 : truthy (cass_want_affine 0 0 3) = true) by reflexivity.
  assert (H3 : 2 <> 8) by discriminate.
  split; [exact H1 |]. split; [exact H2 |]. split; [exact H3 |].
  exact (proj2 (proj1
    (cass_idle_short_circuit (demo_kernel 15 0 0 [1; 2; 3; 4] 10 wa_prev)
       200 2 16 0 2 0 demo_cands demo_start H1 H2) H3) (fun _ c => 1000 - c)).
Defined.

(** ** The local [cpu] at line 72 *)

(** What line 72 tests: the answer of [wake_wide] and the membership of
    the value held by the local [cpu], which is not [this_cpu]. *)
Lemma cass_want_affine_spec (ww cpu : Z) (cpus : cpumask) :
  truthy (cass_want_affine ww cpu cpus) = negb (truthy ww) && Z.testbit cpus cpu.
Proof.
  unfold cass_want_affine, c_and, c_not, cpumask_test_cpu.
  rewrite !truthy_of_bool. reflexivity.
Qed.

(** Whatever the array [cands] held on entry, the result is the same once
    a CPU is online. *)
Lemma cass_select_ignores_cands {K : Type} (ops : kernel K) (p : task)
    (prev_cpu sd_flag wake_flags sibling_count_hint cpu0 : Z)
    (cands0 cands1 : cands_t) (s : kstate K) :
  (exists c, cpu_in (nr_cpumask_bits ops) c (cpu_online_mask ops) = true) ->
  cass_select_task_rq_fair ops p prev_cpu sd_flag wake_flags
    sibling_count_hint cpu0 cands0 s =
  cass_select_task_rq_fair ops p prev_cpu sd_flag wake_flags
    sibling_count_hint cpu0 cands1 s.
Proof.
  intros Hon. rewrite !cass_select_cases.
  destruct (fst (fst _)); [reflexivity |].
  unfold bind. destruct (cass_p_load _ _ _ _ _) as [pl s2].
  rewrite !cass_find_best_run.
  destruct (cass_cpus_nonempty ops (oom_score_adj ops (mem s) p) Hon) as [c Hc].
  apply in_for_each_cpu in Hc.
  destruct (for_each_cpu _ _); [destruct Hc | reflexivity].
Qed.

(** Claim C6: line 72 tests the local [cpu], not the CPU executing the wakeup.
    First call: CPU 0 executes the wakeup and is a candidate, [wake_wide]
    says no, the local [cpu] holds 5: [want_affine] is 0 and
    [wake_affine_idle] is not consulted.  Second call: CPU 2 executes the
    wakeup and is not a candidate, the local [cpu] holds 0: [want_affine] is
    1 and the idle path returns CPU 1. *)
Theorem cass_want_affine_stale_cpu :
  let k0 := demo_kernel 15 0 0 [10; 40; 50; 50] 10 wa_prev in
  let k2 := demo_kernel 15 2 0 [10; 40; 50; 50] 10 wa_prev in
  let woken := {| dm_flips := 1; dm_synced := false |} in
  (cpu_in 8 (smp_processor_id k0) (cass_cpus k0 0) = true /\
   wake_wide k0 woken 200 2 = 0 /\
   cass_wake_affine k0 200 1 16 1 2 1 0 5 (cass_cpus k0 0) demo_start =
     (None, 0, {| mem := woken; log := [EvRecordWakee 200; EvWakeWide 200 2] |})) /\
  (cpu_in 8 (smp_processor_id k2) (cass_cpus k2 0) = false /\
   cass_wake_affine k2 200 1 16 1 2 1 2 0 (cass_cpus k2 0) demo_start =
     (Some 1, 1,
      {| mem := woken;
         log := [EvRecordWakee 200; EvWakeWide 200 2; EvWakeAffineIdle 2 1 1;
                 EvSelectIdleSibling 200 1 1] |})).
Proof. vm_compute. repeat split; reflexivity. Qed.

(** Claim C9: two calls with the same task, flags, parameters, memory and
    collaborators, which differ only in what the local [cpu] holds on
    entry: one returns CPU 1 through the idle path, the other CPU 0 from
    the loop. *)
Theorem cass_select_depends_on_stale_cpu :
  let k0 := demo_kernel 15 0 0 [10; 40; 50; 50] 10 wa_prev in
  fst (cass_select_task_rq_fair k0 200 1 16 1 2 0 demo_cands demo_start) = 1 /\
  fst (cass_select_task_rq_fair k0 200 1 16 1 2 5 demo_cands demo_start) = 0.
Proof. vm_compute. split; reflexivity. Qed.

(** * Further properties of the code *)

(** ** The macro [lsub_positive] (lines 32-35) *)

(** On [unsigned long] operands the macro subtracts exactly when the
    subtrahend fits, gives 0 otherwise, and never yields more than its
    first operand: it cannot wrap. *)
Theorem lsub_positive_saturates (x v : Z) :
  0 <= x <= ULONG_MAX -> 0 <= v <= ULONG_MAX ->
  (v <= x -> lsub_positive x v = x - v) /\
  (x <= v -> lsub_positive x v = 0) /\
  0 <= lsub_positive x v <= x.
Proof.
  intros Hx Hv. rewrite (lsub_positive_sat x v Hx Hv).
  split; [| split]; lia.
Qed.

Lemma lsub_positive_saturates_witness :
  0 <= 5 <= ULONG_MAX /\ 0 <= 15 <= ULONG_MAX /\ lsub_positive 5 15 = 0.
Proof.
  assert (H1 : 0 <= 5 <= ULONG_MAX) by (unfold ULONG_MAX, BITS_PER_LONG; lia).
  assert (H2 : 0 <= 15 <= ULONG_MAX) by (unfold ULONG_MAX, BITS_PER_LONG; lia).
  split; [exact H1 |]. split; [exact H2 |].
  apply (proj1 (proj2 (lsub_positive_saturates 5 15 H1 H2))). lia.
Defined.

(** ** The loop over an empty or a one-CPU mask (lines 98-103, 140) *)

Lemma for_each_cpu_nil (n : Z) (m : cpumask) :
  (forall c, cpu_in n c m = false) -> for_each_cpu n m = [].
Proof.
  intros Hall. destruct (for_each_cpu n m) as [| c l] eqn:E; [reflexivity |].
  assert (Hc : In c (for_each_cpu n m)) by (rewrite E; left; reflexivity).
  apply in_for_each_cpu in Hc. rewrite Hall in Hc. discriminate Hc.
Qed.

Lemma cass_cpus_none_online {K : Type} (ops : kernel K) (adj : Z) :
  (forall c, cpu_in (nr_cpumask_bits ops) c (cpu_online_mask ops) = false) ->
  for_each_cpu (nr_cpumask_bits ops) (cass_cpus ops adj) = [].
Proof.
  intros Hoff. apply for_each_cpu_nil. intros c.
  destruct (cpu_in (nr_cpumask_bits ops) c (cass_cpus ops adj)) eqn:E;
    [| reflexivity].
  apply cass_cpus_online in E. rewrite Hoff in E. discriminate E.
Qed.

Section EdgeMasks.
Context {K : Type} (ops : kernel K).
Variables (p : task) (prev_cpu sd_flag wake_flags sibling_count_hint : Z).

(** With no CPU online, a call that does not leave through the idle path
    skips the loop body altogether and returns whatever the uninitialised
    slot [cands[0]] held in its [cpu] field. *)
Theorem cass_select_no_cpu_online (cpu0 : Z) (cands0 : cands_t) (s : kstate K) :
  let sync0 := cass_sync_init ops wake_flags (task_flags ops (mem s) (current ops)) in
  let cpus := cass_cpus ops (oom_score_adj ops (mem s) p) in
  (forall c, cpu_in (nr_cpumask_bits ops) c (cpu_online_mask ops) = false) ->
  fst (fst (cass_wake_affine ops p prev_cpu sd_flag wake_flags
              sibling_count_hint sync0 (smp_processor_id ops) cpu0 cpus s)) = None ->
  fst (cass_select_task_rq_fair ops p prev_cpu sd_flag wake_flags
         sibling_count_hint cpu0 cands0 s) = cand_cpu (fst cands0).
Proof.
  intros sync0 cpus Hoff Hwa. rewrite cass_select_cases. fold sync0 cpus.
  rewrite Hwa. unfold bind. destruct (cass_p_load _ _ _ _ _) as [pl s2].
  rewrite cass_find_best_run. simpl. fold cpus.
  unfold cpus. rewrite (cass_cpus_none_online ops _ Hoff). reflexivity.
Qed.

(** When exactly one CPU is a candidate, the loop returns it whatever the
    loads are. *)
Theorem cass_find_best_single (sync p_queued this_cpu p_load : Z)
    (cpus : cpumask) (c : Z) (cands0 : cands_t) (s : kstate K) :
  (forall c', cpu_in (nr_cpumask_bits ops) c' cpus = true <-> c' = c) ->
  fst (cass_find_best ops sync p_queued prev_cpu this_cpu p_load cpus cands0 s) = c.
Proof.
  intros Hone. rewrite cass_find_best_run. simpl.
  assert (Hc : In c (for_each_cpu (nr_cpumask_bits ops) cpus))
    by (apply in_for_each_cpu, Hone; reflexivity).
  assert (Hall : forall x, In x (for_each_cpu (nr_cpumask_bits ops) cpus) -> x = c)
    by (intros x Hx; apply Hone, in_for_each_cpu, Hx).
  destruct (for_each_cpu (nr_cpumask_bits ops) cpus) as [| c1 l]; [destruct Hc |].
  apply Hall, fold_pick_in.
Qed.

End EdgeMasks.

(** No CPU online, a call that is not a wakeup: the stale 77 of slot 0 is
    returned. *)
Lemma cass_select_no_cpu_online_witness :
  (forall c, cpu_in 8 c 0 = false) /\
  fst (cass_select_task_rq_fair (demo_kernel 0 0 0 [40; 40] 10 wa_none)
         200 1 0 0 0 0 demo_cands demo_start) = 77.
Proof.
  assert (H : forall c, cpu_in 8 c 0 = false).
  { intros c. unfold cpu_in, cpumask_test_cpu. rewrite Z.testbit_0_l.
    apply andb_false_r. }
  split; [exact H |].
  exact (cass_select_no_cpu_online (demo_kernel 0 0 0 [40; 40] 10 wa_none)
           200 1 0 0 0 0 demo_cands demo_start H eq_refl).
Defined.

(** Only CPU 1 in the mask: it is returned although CPU 0 has the lower
    load. *)
Lemma cass_find_best_single_witness :
  (forall c', cpu_in 8 c' 2 = true <-> c' = 1) /\
  fst (cass_find_best (demo_kernel 3 0 0 [0; 40] 10 wa_none)
         0 0 0 0 10 2 demo_cands demo_start) = 1.
Proof.
  assert (H : forall c', cpu_in 8 c' 2 = true <-> c' = 1).
  { intros c'. rewrite cpu_in_spec. split.
    - intros [Hr Hb].
      assert (Hc : c' = 0 \/ c' = 1 \/ c' = 2 \/ c' = 3 \/ c' = 4 \/ c' = 5
                   \/ c' = 6 \/ c' = 7) by lia.
      destruct Hc as [-> | [-> | [-> | [-> | [-> | [-> | [-> | ->]]]]]]];
        try discriminate Hb; reflexivity.
    - intros ->. split; [lia | reflexivity]. }
  split; [exact H |].
  exact (cass_find_best_single (demo_kernel 3 0 0 [0; 40] 10 wa_none)
           0 0 0 0 10 2 1 demo_cands demo_start H).
Defined.

(** ** What a call does to the memory and which loads it reads *)

Lemma rq_reads_app (a b : list event) :
  rq_reads (a ++ b) = rq_reads a ++ rq_reads b.
Proof. apply flat_map_app. Qed.

Lemma rq_reads_wake (tw : list event) :
  forallb is_wake_event tw = true -> rq_reads tw = [].
Proof.
  induction tw as [| e tw IH]; [reflexivity |].
  simpl. intros H. apply andb_true_iff in H. destruct H as [He Htw].
  rewrite (IH Htw). destruct e; try discriminate He; reflexivity.
Qed.

Lemma rq_reads_project {K : Type} (ops : kernel K) (sync this_cpu : Z)
    (l : list Z) :
  rq_reads (flat_map (project_events ops sync this_cpu) l) = l.
Proof.
  induction l as [| c l IH]; [reflexivity |].
  cbn [flat_map]. rewrite rq_reads_app, IH. unfold project_events.
  destruct (truthy sync && (c =? this_cpu)); reflexivity.
Qed.

Section Effects.
Context {K : Type} (ops : kernel K).
Variables (p : task) (prev_cpu sd_flag wake_flags sibling_count_hint : Z).

(** The updating calls of a call, in order: [record_wakee(p)] once when
    the call is a wakeup and never otherwise, then [sync_entity_load_avg]
    on [p] once when the call reaches line 85 and is not a task creation,
    and never on the idle path or on a task creation. *)
Theorem cass_select_updates (cpu0 : Z) (cands0 : cands_t) (s : kstate K) :
  let sync0 := cass_sync_init ops wake_flags (task_flags ops (mem s) (current ops)) in
  let cpus := cass_cpus ops (oom_score_adj ops (mem s) p) in
  updates (log (snd (cass_select_task_rq_fair ops p prev_cpu sd_flag wake_flags
                       sibling_count_hint cpu0 cands0 s))) =
  updates (log s) ++
  (if is_wakeup ops sd_flag wake_flags then [EvRecordWakee p] else []) ++
  match fst (fst (cass_wake_affine ops p prev_cpu sd_flag wake_flags
                    sibling_count_hint sync0 (smp_processor_id ops) cpu0 cpus s)) with
  | Some _ => []
  | None => if is_fork ops sd_flag wake_flags then []
            else [EvSyncEntityLoadAvg p]
  end.
Proof.
  intros sync0 cpus. rewrite cass_select_cases. fold sync0 cpus.
  assert (Hloop : forall sy l,
            updates (flat_map (project_events ops sy (smp_processor_id ops)) l) = []).
  { intros sy l. induction l as [| c l IH]; [reflexivity |].
    cbn [flat_map]. unfold updates in *. rewrite filter_app, IH.
    unfold project_events.
    destruct (truthy sy && (c =? smp_processor_id ops)); reflexivity. }
  assert (Hrest : forall sy (s1 : kstate K),
    updates (log (snd ((p_load <- cass_p_load ops p sd_flag wake_flags ;;
                        cass_find_best ops sy
                          (cass_p_queued ops (task_on_rq_queued ops (mem s) p) p)
                          prev_cpu (smp_processor_id ops) p_load cpus cands0) s1))) =
    updates (log s1) ++
    (if is_fork ops sd_flag wake_flags then [] else [EvSyncEntityLoadAvg p])).
  { intros sy s1. unfold bind. rewrite cass_p_load_cases.
    destruct (is_fork _ _ _); cbv beta iota zeta; rewrite cass_find_best_run;
      cbn [snd log mem]; unfold updates in *; rewrite !filter_app, Hloop;
      rewrite ?app_nil_r; reflexivity. }
  rewrite cass_wake_affine_cases.
  destruct (is_wakeup _ _ _).
  - destruct (truthy _).
    + destruct (_ =? _); cbn [fst snd].
      * rewrite Hrest. cbn [log]. unfold updates. rewrite !filter_app.
        cbn [filter is_update_event app]. rewrite <- !app_assoc. reflexivity.
      * cbn [log]. unfold updates. rewrite !filter_app.
        cbn [filter is_update_event app]. reflexivity.
    + cbn [fst snd]. rewrite Hrest. cbn [log]. unfold updates.
      rewrite !filter_app. cbn [filter is_update_event app].
      rewrite <- !app_assoc. reflexivity.
  - cbn [fst snd]. rewrite Hrest. reflexivity.
Qed.

(** A call that leaves through the idle path reads no runqueue load; any
    other call reads the load of every CPU of the candidate universe exactly
    once, in ascending order of CPU id, and of no other CPU. *)
Theorem cass_select_rq_reads (cpu0 : Z) (cands0 : cands_t) (s : kstate K) :
  let sync0 := cass_sync_init ops wake_flags (task_flags ops (mem s) (current ops)) in
  let cpus := cass_cpus ops (oom_score_adj ops (mem s) p) in
  rq_reads (log (snd (cass_select_task_rq_fair ops p prev_cpu sd_flag wake_flags
                        sibling_count_hint cpu0 cands0 s))) =
  rq_reads (log s) ++
  match fst (fst (cass_wake_affine ops p prev_cpu sd_flag wake_flags
                    sibling_count_hint sync0 (smp_processor_id ops) cpu0 cpus s)) with
  | Some _ => []
  | None => for_each_cpu (nr_cpumask_bits ops) cpus
  end.
Proof.
  intros sync0 cpus. rewrite cass_select_cases. fold sync0 cpus.
  match goal with |- context [cass_wake_affine ?a ?b ?c ?d ?e ?f ?g ?h ?i ?j ?k] =>
    destruct (cass_wake_affine_log a b c d e f g h i j k) as [tw [Etw Htw]];
    destruct (cass_wake_affine a b c d e f g h i j k) as [[[r |] w] s1]
  end; simpl in *.
  - rewrite Etw, rq_reads_app, (rq_reads_wake tw Htw). reflexivity.
  - unfold bind. rewrite cass_p_load_cases.
    destruct (is_fork _ _ _); simpl; rewrite cass_find_best_run; simpl;
      rewrite Etw, !rq_reads_app, (rq_reads_wake tw Htw), rq_reads_project;
      simpl; rewrite ?app_nil_r; reflexivity.
Qed.

(** A call that is not a wakeup, or on which [wake_wide] answers yes,
    never consults the local [cpu] in a way that matters: result, memory
    and log are the same whatever that local held on entry. *)
Theorem cass_select_ignores_stale_cpu (cpu0 cpu1 : Z) (cands0 : cands_t)
    (s : kstate K) :
  is_wakeup ops sd_flag wake_flags = false \/
  truthy (wake_wide ops (record_wakee ops (mem s) p) p sibling_count_hint) = true ->
  cass_select_task_rq_fair ops p prev_cpu sd_flag wake_flags
    sibling_count_hint cpu0 cands0 s =
  cass_select_task_rq_fair ops p prev_cpu sd_flag wake_flags
    sibling_count_hint cpu1 cands0 s.
Proof.
  intros H. rewrite !cass_select_cases, !cass_wake_affine_cases.
  destruct H as [-> | Hww]; [reflexivity |].
  assert (Hw : forall cpu cpus,
    cass_want_affine (wake_wide ops (record_wakee ops (mem s) p) p sibling_count_hint)
      cpu cpus = 0).
  { intros cpu cpus. unfold cass_want_affine, c_and, c_not.
    rewrite Hww. reflexivity. }
  rewrite !Hw. reflexivity.
Qed.

(** The synchronous-mode rule needs a wakeup with [WF_SYNC] from a task
    that is not exiting: on any other call that reaches the loop, the loop
    runs with [sync] equal to 0. *)
Theorem cass_sync_needs_wakeup (cpu0 : Z) (cands0 : cands_t) (s : kstate K) :
  let sync0 := cass_sync_init ops wake_flags (task_flags ops (mem s) (current ops)) in
  let p_queued := cass_p_queued ops (task_on_rq_queued ops (mem s) p) p in
  let this_cpu := smp_processor_id ops in
  let cpus := cass_cpus ops (oom_score_adj ops (mem s) p) in
  let wa := cass_wake_affine ops p prev_cpu sd_flag wake_flags
              sibling_count_hint sync0 this_cpu cpu0 cpus s in
  is_wakeup ops sd_flag wake_flags = false \/
  Z.land wake_flags (WF_SYNC ops) = 0 \/
  Z.land (task_flags ops (mem s) (current ops)) (PF_EXITING ops) <> 0 ->
  fst (fst wa) = None ->
  cass_select_task_rq_fair ops p prev_cpu sd_flag wake_flags
    sibling_count_hint cpu0 cands0 s =
  (p_load <- cass_p_load ops p sd_flag wake_flags ;;
   cass_find_best ops 0 p_queued prev_cpu this_cpu p_load cpus cands0) (snd wa).
Proof.
  intros sync0 p_queued this_cpu cpus wa H Hnone.
  rewrite cass_select_cases. fold sync0 p_queued this_cpu cpus wa.
  rewrite Hnone.
  assert (E : Z.land sync0 (snd (fst wa)) = 0); [| rewrite E; reflexivity].
  destruct H as [Hw | [Hs | He]].
  - subst wa. rewrite cass_wake_affine_cases, Hw. simpl. apply Z.land_0_r.
  - subst sync0. unfold cass_sync_init, c_and. rewrite Hs. reflexivity.
  - subst sync0. unfold cass_sync_init, c_and, c_not, truthy.
    apply Z.eqb_neq in He. rewrite He. simpl. rewrite andb_false_r. reflexivity.
Qed.

End Effects.

(** Not a wakeup: the local [cpu] holding 0 or 5 makes no difference. *)
Lemma cass_select_ignores_stale_cpu_witness :
  (is_wakeup (demo_kernel 15 0 0 [10; 40] 10 wa_prev) 0 1 = false \/
   truthy (wake_wide (demo_kernel 15 0 0 [10; 40] 10 wa_prev)
             (record_wakee (demo_kernel 15 0 0 [10; 40] 10 wa_prev)
                (mem demo_start) 200) 200 2) = true) /\
  cass_select_task_rq_fair (demo_kernel 15 0 0 [10; 40] 10 wa_prev)
    200 1 0 1 2 0 demo_cands demo_start =
  cass_select_task_rq_fair (demo_kernel 15 0 0 [10; 40] 10 wa_prev)
    200 1 0 1 2 5 demo_cands demo_start.
Proof.
  assert (H : is_wakeup (demo_kernel 15 0 0 [10; 40] 10 wa_prev) 0 1 = false \/
              truthy (wake_wide (demo_kernel 15 0 0 [10; 40] 10 wa_prev)
                        (record_wakee (demo_kernel 15 0 0 [10; 40] 10 wa_prev)
                           (mem demo_start) 200) 200 2) = true)
    by (left; reflexivity).
  split; [exact H |].
  exact (cass_select_ignores_stale_cpu (demo_kernel 15 0 0 [10; 40] 10 wa_prev)
           200 1 0 1 2 0 5 demo_cands demo_start H).
Defined.

(** [WF_SYNC] on a call that is not a wakeup: CPU 0, where the call runs,
    gets no deduction of the load of the running task and loses to CPU 1. *)
Lemma cass_sync_needs_wakeup_witness :
  (is_wakeup (demo_kernel 3 0 0 [40; 30] 10 wa_none) 0 1 = false \/
   Z.land 1 (WF_SYNC (demo_kernel 3 0 0 [40; 30] 10 wa_none)) = 0 \/
   Z.land (task_flags (demo_kernel 3 0 0 [40; 30] 10 wa_none) (mem demo_start)
             (current (demo_kernel 3 0 0 [40; 30] 10 wa_none)))
          (PF_EXITING (demo_kernel 3 0 0 [40; 30] 10 wa_none)) <> 0) /\
  fst (cass_select_task_rq_fair (demo_kernel 3 0 0 [40; 30] 10 wa_none)
         200 1 0 1 2 0 demo_cands demo_start) = 1.
Proof.
  assert (H : is_wakeup (demo_kernel 3 0 0 [40; 30] 10 wa_none) 0 1 = false \/
     Z.land 1 (WF_SYNC (demo_kernel 3 0 0 [40; 30] 10 wa_none)) = 0 \/
     Z.land (task_flags (demo_kernel 3 0 0 [40; 30] 10 wa_none) (mem demo_start)
               (current (demo_kernel 3 0 0 [40; 30] 10 wa_none)))
            (PF_EXITING (demo_kernel 3 0 0 [40; 30] 10 wa_none)) <> 0)
    by (left; reflexivity).
  split; [exact H |].
  exact (eq_trans
           (f_equal fst
              (cass_sync_needs_wakeup (demo_kernel 3 0 0 [40; 30] 10 wa_none)
                 200 1 0 1 2 0 demo_cands demo_start H eq_refl))
           eq_refl).
Defined.

(** Stale slots 77/99 or 0/0 in [cands]: the same outcome. *)
Lemma cass_select_ignores_cands_witness :
  (exists c, cpu_in 8 c 15 = true) /\
  cass_select_task_rq_fair (demo_kernel 15 0 0 [100; 100; 50; 50] 20 wa_none)
    200 0 0 0 0 0 demo_cands demo_start =
  cass_select_task_rq_fair (demo_kernel 15 0 0 [100; 100; 50; 50] 20 wa_none)
    200 0 0 0 0 0
    ({| cand_cpu := 0; cand_load := 0 |}, {| cand_cpu := 0; cand_load := 0 |})
    demo_start.
Proof.
  assert (H : exists c, cpu_in 8 c 15 = true) by (exists 0; reflexivity).
  split; [exact H |].
  exact (cass_select_ignores_cands (demo_kernel 15 0 0 [100; 100; 50; 50] 20 wa_none)
           200 0 0 0 0 0 demo_cands _ demo_start H).
Defined.

(** ** The two slots and the overflow of [+=] *)

Section Slots.
Context {K : Type} (ops : kernel K).
Variables sync p_queued prev_cpu this_cpu p_load : Z.

(** After any number of iterations beyond the first, [best] points into
    the array, [cidx] is the other slot (so the next candidate never
    overwrites the best one), and the best slot holds a visited CPU together
    with its own projected load. *)
Theorem cass_loop_slots (c : Z) (l : list Z) (cands0 : cands_t) (s : kstate K) :
  let ls := fst (for_each (cass_loop_body ops sync p_queued prev_cpu this_cpu p_load)
                   (c :: l) {| ls_cands := cands0; ls_best := 0; ls_cidx := 0 |} s) in
  let b := slot (ls_cands ls) (ls_best ls) in
  (ls_best ls = 0 \/ ls_best ls = 1) /\
  ls_cidx ls = 1 - ls_best ls /\
  In (cand_cpu b) (c :: l) /\
  cand_load b = cass_projected ops (mem s) sync p_queued prev_cpu this_cpu p_load
                  (cand_cpu b).
Proof.
  destruct (cass_loop_body_first ops sync p_queued prev_cpu this_cpu p_load
              cands0 c s) as [ls1 [E1 H1]].
  set (s1 := {| mem := mem s; log := log s ++ project_events ops sync this_cpu c |}) in *.
  destruct (cass_loop_rest ops sync p_queued prev_cpu this_cpu p_load
              l ls1 c s1 H1) as [ls2 [E2 [Hb [Hc Hs]]]].
  assert (E : fst (for_each (cass_loop_body ops sync p_queued prev_cpu this_cpu p_load)
                     (c :: l) {| ls_cands := cands0; ls_best := 0; ls_cidx := 0 |} s)
              = ls2).
  { simpl. unfold bind at 1. rewrite E1, E2. reflexivity. }
  intros ls b. subst b ls. rewrite E, Hs. cbn [cand_cpu cand_load].
  split; [exact Hb |]. split.
  - rewrite Hc. destruct Hb as [-> | ->]; reflexivity.
  - split; [apply fold_pick_in | reflexivity].
Qed.

(** The addition of the load of the task does not saturate: for a task
    that is not queued, outside synchronous mode, a sum beyond [ULONG_MAX]
    wraps, and the load stored for the CPU is lower than the load the CPU
    already has. *)
Theorem cass_project_wraps (cs : cands_t) (curr c : Z) (s : kstate K) :
  truthy sync = false -> truthy p_queued = false ->
  0 <= p_load <= ULONG_MAX ->
  ULONG_MAX < cpu_load ops (mem s) c + p_load ->
  let proj := cand_load (slot (fst (cass_project ops sync p_queued prev_cpu
                                      this_cpu p_load cs curr c s)) curr) in
  proj = cpu_load ops (mem s) c + p_load - 2 ^ BITS_PER_LONG /\
  proj < cpu_load ops (mem s) c.
Proof.
  intros Hs Hq Hp Hov proj. subst proj.
  rewrite cass_project_run. cbn [fst]. rewrite slot_slot_put. cbn [cand_load].
  rewrite cass_projected_eq, Hs, Hq.
  pose proof (ulong_range (rq_load_avg ops (mem s) c)) as Hb.
  fold (cpu_load ops (mem s) c) in Hb.
  set (base := cpu_load ops (mem s) c) in *.
  assert (E : ulong_add base p_load = base + p_load - 2 ^ BITS_PER_LONG).
  { unfold ulong_add, ulong.
    replace (base + p_load)
      with (base + p_load - 2 ^ BITS_PER_LONG + 1 * 2 ^ BITS_PER_LONG) at 1 by lia.
    rewrite Z_mod_plus_full. apply Z.mod_small.
    unfold ULONG_MAX in *. lia. }
  rewrite E. unfold ULONG_MAX in *. lia.
Qed.

End Slots.

(** A runqueue load of [ULONG_MAX] and a task load of 2: the stored load
    is 1. *)
Lemma cass_project_wraps_witness :
  truthy 0 = false /\ 0 <= 2 <= ULONG_MAX /\
  ULONG_MAX < cpu_load (demo_kernel 3 0 0 [ULONG_MAX; 40] 2 wa_none)
                (mem demo_start) 0 + 2 /\
  cand_load (slot (fst (cass_project (demo_kernel 3 0 0 [ULONG_MAX; 40] 2 wa_none)
                          0 0 1 0 2 demo_cands 0 0 demo_start)) 0) = 1.
Proof.
  assert (H1 : truthy 0 = false) by reflexivity.
  assert (H2 : 0 <= 2 <= ULONG_MAX) by (unfold ULONG_MAX, BITS_PER_LONG; lia).
  assert (H3 : ULONG_MAX < cpu_load (demo_kernel 3 0 0 [ULONG_MAX; 40] 2 wa_none)
                             (mem demo_start) 0 + 2) by (vm_compute; reflexivity).
  split; [exact H1 |]. split; [exact H2 |]. split; [exact H3 |].
  exact (proj1 (cass_project_wraps (demo_kernel 3 0 0 [ULONG_MAX; 40] 2 wa_none)
                  0 0 1 0 2 demo_cands 0 0 demo_start H1 H1 H2 H3)).
Defined.
